(** * fund_it: the campaign ledger of [src/index.ts]

    A shallow embedding of the crowdfunding canister and the properties of
    its five operations (create, update title/description, donate, read,
    delete) over the campaign storage.

    Conventions of the embedding.
    - [campaignStorage] is azle's [StableBTreeMap<string, Campaign>]: records
      live serialised in stable memory ([new StableBTreeMap(0, 44, 1024)]
      gives the byte bounds of keys and values), [get] hands out a decoded
      copy and only [insert]/[remove] change what is stored; this is why the
      source re-inserts a record after changing it.  The model is a finite
      map of record values, threaded through every operation; assignments
      to the fetched record are updates of a local value.
    - TypeScript [number] is embedded twice.  The operations on [Z] take
      amounts, goals and times as whole numbers with exact arithmetic; they
      carry the properties that do not depend on how a sum is rounded.
      [Module Binary64] has [createCampaign] and [donateCampaign] on IEEE
      754 binary64 values, for the properties that do.  [Number(ic.time())]
      is the argument [now].
    - Titles and descriptions are strings of 8-bit characters; [Js.trim]
      is [String.prototype.trim] on texts of the ASCII range.
    - [Math.random()] is an input: [rnd] is the text of the number drawn,
      from which [generateId] cuts the identifier.
    - [Result.Ok]/[Result.Err] carry the record or the message of the source.
      No modelled operation throws, so the [catch] arms are unreachable. *)

From Stdlib Require Import ZArith Lia SpecFloat.
From stdpp Require Import gmap strings list fin_maps.

Local Open Scope Z_scope.

(** ** JavaScript string primitives used by the canister *)

Module Js.

(** [s.trim()] on the white space of the ASCII range. *)
Fixpoint trimStart (s : string) : string :=
  match s with
  | EmptyString => EmptyString
  | String a s' => if Ascii.is_space a then trimStart s' else s
  end.

Definition trimEnd (s : string) : string :=
  String.rev (trimStart (String.rev s)).

Definition trim (s : string) : string := trimEnd (trimStart s).

Fixpoint drop (n : nat) (s : string) : string :=
  match n, s with
  | O, _ => s
  | S n', String _ s' => drop n' s'
  | S _, EmptyString => EmptyString
  end.

Fixpoint take (n : nat) (s : string) : string :=
  match n, s with
  | S n', String a s' => String a (take n' s')
  | _, _ => EmptyString
  end.

(** [s.substring(from, to)] for [from <= to]; both ends are clamped to
    the length of [s]. *)
Definition substring (from to : nat) (s : string) : string :=
  take (to - from) (drop from s).

Fixpoint every (p : Ascii.ascii → bool) (s : string) : bool :=
  match s with
  | EmptyString => true
  | String a s' => p a && every p s'
  end.

(** The character class [[a-f\d]]. *)
Definition hexLowerOrDigit (a : Ascii.ascii) : bool :=
  let n := Ascii.nat_of_ascii a in
  ((48 <=? n)%nat && (n <=? 57)%nat) || ((97 <=? n)%nat && (n <=? 102)%nat).

(** [/^[a-f\d]{5}$/.test(s)] *)
Definition testId (s : string) : bool :=
  (String.length s =? 5)%nat && every hexLowerOrDigit s.

End Js.

(** ** Data model ([./types]) *)

(** What reaches a [Principal]-typed parameter at run time.  azle decodes a
    Candid principal into an instance of its [Principal] class (an object);
    TypeScript types are erased, so a JavaScript caller can also hand in a
    bare string, which is what the [typeof] test of [createCampaign] asks
    for. *)
Inductive Principal :=
| PrincipalObject (text : string)
| PrincipalString (s : string).

(** [!p] *)
Definition falsy (p : Principal) : bool :=
  match p with
  | PrincipalObject _ => false
  | PrincipalString s => bool_decide (s = "")
  end.

(** [typeof p !== "string"] *)
Definition typeofNotString (p : Principal) : bool :=
  match p with
  | PrincipalObject _ => true
  | PrincipalString _ => false
  end.

Record Donor := mkDonor {
  donorId : Principal;
  amount : Z
}.

Record Campaign := mkCampaign {
  id : string;
  proposer : Principal;
  title : string;
  description : string;
  goal : Z;
  totalDonations : Z;
  deadline : Z;
  donors : list Donor
}.

Inductive Result (A E : Type) :=
| Ok (a : A)
| Err (e : E).
Arguments Ok {A E} a.
Arguments Err {A E} e.

Abbreviation Storage := (gmap string Campaign).

(** Field assignments on a fetched record. *)
Definition setTitle (c : Campaign) (t : string) : Campaign :=
  mkCampaign (id c) (proposer c) t (description c) (goal c)
             (totalDonations c) (deadline c) (donors c).

Definition setDescription (c : Campaign) (d : string) : Campaign :=
  mkCampaign (id c) (proposer c) (title c) d (goal c)
             (totalDonations c) (deadline c) (donors c).

Definition setTotalDonations (c : Campaign) (n : Z) : Campaign :=
  mkCampaign (id c) (proposer c) (title c) (description c) (goal c)
             n (deadline c) (donors c).

(** [c.donors.push(d)] *)
Definition pushDonor (c : Campaign) (d : Donor) : Campaign :=
  mkCampaign (id c) (proposer c) (title c) (description c) (goal c)
             (totalDonations c) (deadline c) (donors c ++ [d]).

(** ** Messages *)

Definition InvalidProposer : string := "Invalid proposer".
Definition MissingTitle : string := "Title is required".
Definition MissingDescription : string := "Description is required".
Definition InvalidGoal : string := "Goal should be greater than 0".
Definition CampaignEnded : string := "This campaign has ended".
Definition GoalExceeded : string := "Donation amount is greater than the goal".
Definition InvalidId : string := "Invalid campaign ID".
Definition NotFound (campaignId : string) : string :=
  "The campaign with id=" +:+ campaignId +:+ " is not found".
Definition DeadlineNotFound : string := "Campaign not found".

(** ** The operations of [src/index.ts] *)

(** [("" + Math.random()).substring(2, 7)], [rnd] being the text of the
    number drawn. *)
Definition generateId (rnd : string) : string := Js.substring 2 7 rnd.

Definition createCampaign (now : Z) (rnd : string)
    (_proposer : Principal) (_title _description : string) (_goal _deadline : Z)
    (campaignStorage : Storage) : Result Campaign string * Storage :=
  if falsy _proposer || typeofNotString _proposer then
    (Err InvalidProposer, campaignStorage)
  else if bool_decide (_title = "")
          || (String.length (Js.trim _title) =? 0)%nat then
    (Err MissingTitle, campaignStorage)
  else if bool_decide (_description = "")
          || (String.length (Js.trim _description) =? 0)%nat then
    (Err MissingDescription, campaignStorage)
  else if (_goal =? 0) || (_goal <=? 0) then
    (Err InvalidGoal, campaignStorage)
  else
    let presentTime := now in
    let nanoSeconds := _deadline * 86400 * 1000000000 in
    let endDate := presentTime + nanoSeconds in
    let campaign :=
      {| id := generateId rnd;
         proposer := _proposer;
         title := _title;
         description := _description;
         goal := _goal;
         totalDonations := 0;
         deadline := endDate;
         donors := [] |} in
    (Ok campaign, <[id campaign := campaign]> campaignStorage).

Definition updateOnlyTitleandDescription
    (_campaignId _title _description : string)
    (campaignStorage : Storage) : Result Campaign string * Storage :=
  match campaignStorage !! _campaignId with
  | Some existingCampaign =>
      let existingCampaign := setTitle existingCampaign _title in
      let existingCampaign := setDescription existingCampaign _description in
      (Ok existingCampaign, <[_campaignId := existingCampaign]> campaignStorage)
  | None => (Err (NotFound _campaignId), campaignStorage)
  end.

Definition donateCampaign (now : Z)
    (_campaignId : string) (_donorId : Principal) (_amount : Z)
    (campaignStorage : Storage) : Result Campaign string * Storage :=
  match campaignStorage !! _campaignId with
  | Some existingCampaign =>
      if now >? deadline existingCampaign then
        (Err CampaignEnded, campaignStorage)
      else
        let newDonor := {| donorId := _donorId; amount := _amount |} in
        let existingCampaign := pushDonor existingCampaign newDonor in
        if goal existingCampaign >=? totalDonations existingCampaign + _amount
        then
          let existingCampaign :=
            setTotalDonations existingCampaign
              (totalDonations existingCampaign + _amount) in
          (Ok existingCampaign,
           <[_campaignId := existingCampaign]> campaignStorage)
        else (Err GoalExceeded, campaignStorage)
  | None => (Err (NotFound _campaignId), campaignStorage)
  end.

Definition getCampaign (campaignId : string) (campaignStorage : Storage)
    : Result Campaign string * Storage :=
  if bool_decide (campaignId = "") || negb (Js.testId campaignId) then
    (Err InvalidId, campaignStorage)
  else
    match campaignStorage !! campaignId with
    | Some existingCampaign => (Ok existingCampaign, campaignStorage)
    | None => (Err (NotFound campaignId), campaignStorage)
    end.

Definition getDeadlineByCampaignId (campaignId : string)
    (campaignStorage : Storage) : Result Z string * Storage :=
  if bool_decide (campaignId = "") || negb (Js.testId campaignId) then
    (Err InvalidId, campaignStorage)
  else
    match campaignStorage !! campaignId with
    | Some existingCampaign => (Ok (deadline existingCampaign), campaignStorage)
    | None => (Err DeadlineNotFound, campaignStorage)
    end.

(** [campaignStorage.remove(id)] returns the record it removes. *)
Definition deleteCampaign (campaignId : string) (campaignStorage : Storage)
    : Result Campaign string * Storage :=
  if bool_decide (campaignId = "") || negb (Js.testId campaignId) then
    (Err InvalidId, campaignStorage)
  else
    match campaignStorage !! campaignId with
    | Some deletedCampaign =>
        (Ok deletedCampaign, delete campaignId campaignStorage)
    | None => (Err (NotFound campaignId), campaignStorage)
    end.

(** ** The earlier copies of the canister

    The two other copies of the file differ from [src/index.ts] in the
    validation only: [createCampaign] asks for a proposer that is present
    and does not look at its run-time type, the lookups do not check the
    shape of the identifier, and the not-found messages are worded
    differently. *)

Module Earlier.

Definition ProposerRequired : string := "Proposer is required".
Definition NotFound (campaignId : string) : string :=
  "the campaign with id=" +:+ campaignId +:+ " is not found".

Definition createCampaign (now : Z) (rnd : string)
    (_proposer : Principal) (_title _description : string)
    (_goal _deadline : Z)
    (campaignStorage : Storage) : Result Campaign string * Storage :=
  if falsy _proposer then
    (Err ProposerRequired, campaignStorage)
  else if bool_decide (_title = "")
          || (String.length (Js.trim _title) =? 0)%nat then
    (Err MissingTitle, campaignStorage)
  else if bool_decide (_description = "")
          || (String.length (Js.trim _description) =? 0)%nat then
    (Err MissingDescription, campaignStorage)
  else if (_goal =? 0) || (_goal <=? 0) then
    (Err InvalidGoal, campaignStorage)
  else
    let presentTime := now in
    let nanoSeconds := _deadline * 86400 * 1000000000 in
    let endDate := presentTime + nanoSeconds in
    let campaign :=
      {| id := generateId rnd;
         proposer := _proposer;
         title := _title;
         description := _description;
         goal := _goal;
         totalDonations := 0;
         deadline := endDate;
         donors := [] |} in
    (Ok campaign, <[id campaign := campaign]> campaignStorage).

Definition donateCampaign (now : Z)
    (_campaignId : string) (_donorId : Principal) (_amount : Z)
    (campaignStorage : Storage) : Result Campaign string * Storage :=
  match campaignStorage !! _campaignId with
  | Some campaign =>
      if now >? deadline campaign then
        (Err CampaignEnded, campaignStorage)
      else
        let newDonor := {| donorId := _donorId; amount := _amount |} in
        let campaign := pushDonor campaign newDonor in
        if goal campaign >=? totalDonations campaign + _amount then
          let campaign :=
            setTotalDonations campaign (totalDonations campaign + _amount) in
          (Ok campaign, <[_campaignId := campaign]> campaignStorage)
        else (Err GoalExceeded, campaignStorage)
  | None => (Err (NotFound _campaignId), campaignStorage)
  end.

Definition updateOnlyTitleandDescription
    (_campaignId _title _description : string)
    (campaignStorage : Storage) : Result Campaign string * Storage :=
  match campaignStorage !! _campaignId with
  | Some campaign =>
      let campaign := setTitle campaign _title in
      let campaign := setDescription campaign _description in
      (Ok campaign, <[_campaignId := campaign]> campaignStorage)
  | None => (Err (NotFound _campaignId), campaignStorage)
  end.

Definition getCampaign (campaignId : string) (campaignStorage : Storage)
    : Result Campaign string * Storage :=
  match campaignStorage !! campaignId with
  | Some campaign => (Ok campaign, campaignStorage)
  | None => (Err (NotFound campaignId), campaignStorage)
  end.

Definition DeadlineNotFound : string := "bhvbsdkv".

Definition getDeadlineByCampaignId (campaignId : string)
    (campaignStorage : Storage) : Result Z string * Storage :=
  match campaignStorage !! campaignId with
  | Some campaign => (Ok (deadline campaign), campaignStorage)
  | None => (Err DeadlineNotFound, campaignStorage)
  end.

Definition deleteCampaign (campaignId : string) (campaignStorage : Storage)
    : Result Campaign string * Storage :=
  match campaignStorage !! campaignId with
  | Some deletedCampaign =>
      (Ok deletedCampaign, delete campaignId campaignStorage)
  | None => (Err (NotFound campaignId), campaignStorage)
  end.

End Earlier.

(** ** Sequences of calls *)

(** One call of the canister; the clock reading and the random draw of a
    call are part of it. *)
Inductive Call :=
| CreateCampaign (now : Z) (rnd : string) (_proposer : Principal)
    (_title _description : string) (_goal _deadline : Z)
| UpdateOnlyTitleandDescription (_campaignId _title _description : string)
| DonateCampaign (now : Z) (_campaignId : string) (_donorId : Principal)
    (_amount : Z)
| GetCampaign (campaignId : string)
| GetDeadlineByCampaignId (campaignId : string)
| DeleteCampaign (campaignId : string).

(** The storage a call leaves behind. *)
Definition exec (call : Call) (campaignStorage : Storage) : Storage :=
  match call with
  | CreateCampaign now rnd p t d g dl =>
      snd (createCampaign now rnd p t d g dl campaignStorage)
  | UpdateOnlyTitleandDescription i t d =>
      snd (updateOnlyTitleandDescription i t d campaignStorage)
  | DonateCampaign now i p a => snd (donateCampaign now i p a campaignStorage)
  | GetCampaign i => snd (getCampaign i campaignStorage)
  | GetDeadlineByCampaignId i => snd (getDeadlineByCampaignId i campaignStorage)
  | DeleteCampaign i => snd (deleteCampaign i campaignStorage)
  end.

Fixpoint run (calls : list Call) (campaignStorage : Storage) : Storage :=
  match calls with
  | [] => campaignStorage
  | call :: rest => run rest (exec call campaignStorage)
  end.

Definition isOk {A E} (r : Result A E) : bool :=
  match r with Ok _ => true | Err _ => false end.

(** The record an accepted donation stores: the donor at the end of
    [donors], the amount added to [totalDonations]. *)
Definition credited (c : Campaign) (_donorId : Principal) (_amount : Z)
    : Campaign :=
  let c := pushDonor c {| donorId := _donorId; amount := _amount |} in
  setTotalDonations c (totalDonations c + _amount).

(** Inputs that pass the four checks of [createCampaign]. *)
Definition accepts (_proposer : Principal) (_title _description : string)
    (_goal : Z) : bool :=
  negb (falsy _proposer || typeofNotString _proposer)
  && negb (bool_decide (_title = "")
           || (String.length (Js.trim _title) =? 0)%nat)
  && negb (bool_decide (_description = "")
           || (String.length (Js.trim _description) =? 0)%nat)
  && negb ((_goal =? 0) || (_goal <=? 0)).

(** The record [createCampaign] builds. *)
Definition fresh (now : Z) (rnd : string) (_proposer : Principal)
    (_title _description : string) (_goal _deadline : Z) : Campaign :=
  {| id := generateId rnd;
     proposer := _proposer;
     title := _title;
     description := _description;
     goal := _goal;
     totalDonations := 0;
     deadline := now + _deadline * 86400 * 1000000000;
     donors := [] |}.

(** ** A running example

    A campaign for a village well: goal 100, one day to run, created at
    clock reading 1000 with the draw 0.12345678. *)

Definition alice : Principal := PrincipalString "alice".
Definition bob : Principal := PrincipalObject "2vxsx-fae".

Definition well : Campaign :=
  fresh 1000 "0.12345678" alice "Well" "A village well" 100 1.

Definition opened : Storage :=
  snd (createCampaign 1000 "0.12345678" alice "Well" "A village well" 100 1 ∅).

Definition carol : Principal := PrincipalString "carol".

(** A second campaign whose draw, 0.12345999, starts with the same five
    digits as the draw of [well]. *)
Definition road : Campaign :=
  fresh 5000 "0.12345999" carol "Road" "A road to the well" 7 3.

(** ** Invariants of the storage *)

Definition withinGoal (campaignStorage : Storage) : Prop :=
  map_Forall (λ _ c, totalDonations c <= goal c) campaignStorage.

Definition nonNegative (campaignStorage : Storage) : Prop :=
  map_Forall (λ _ c, 0 <= totalDonations c) campaignStorage.

(** A call that does not donate a negative amount. *)
Definition givesNothingBack (call : Call) : Prop :=
  match call with
  | DonateCampaign _ _ _ a => 0 <= a
  | _ => True
  end.

(** A call that does not create a campaign under an identifier in use. *)
Definition drawsUnused (campaignStorage : Storage) (call : Call) : Prop :=
  match call with
  | CreateCampaign _ rnd _ _ _ _ _ => campaignStorage !! generateId rnd = None
  | _ => True
  end.

(** What a call can do to the storage: nothing, store the fresh record of
    a creation, store a stored record with new texts, store a stored
    record with a donation credited, or remove a record. *)
Inductive effect (campaignStorage : Storage) : Call → Storage → Prop :=
| effect_none call :
    effect campaignStorage call campaignStorage
| effect_create now rnd p t d g dl :
    accepts p t d g = true →
    effect campaignStorage (CreateCampaign now rnd p t d g dl)
      (<[generateId rnd := fresh now rnd p t d g dl]> campaignStorage)
| effect_update k c t d :
    campaignStorage !! k = Some c →
    effect campaignStorage (UpdateOnlyTitleandDescription k t d)
      (<[k := setDescription (setTitle c t) d]> campaignStorage)
| effect_donate now k c p a :
    campaignStorage !! k = Some c →
    totalDonations c + a <= goal c →
    effect campaignStorage (DonateCampaign now k p a)
      (<[k := credited c p a]> campaignStorage)
| effect_delete k :
    effect campaignStorage (DeleteCampaign k) (delete k campaignStorage).

(** ** Notions used to describe the storage and the draws *)

(** The decimal digits, as [Math.random()] prints them after "0.". *)
Definition isDigit (a : Ascii.ascii) : bool :=
  let n := Ascii.nat_of_ascii a in (48 <=? n)%nat && (n <=? 57)%nat.

(** The one identifier a call can store or remove a record under. *)
Definition touched (call : Call) : string :=
  match call with
  | CreateCampaign _ rnd _ _ _ _ _ => generateId rnd
  | UpdateOnlyTitleandDescription k _ _ => k
  | DonateCampaign _ k _ _ => k
  | GetCampaign k => k
  | GetDeadlineByCampaignId k => k
  | DeleteCampaign k => k
  end.

(** Every record is stored under its own [id]. *)
Definition keyedById (campaignStorage : Storage) : Prop :=
  map_Forall (λ k c, id c = k) campaignStorage.

(** The goal is positive and the proposer a non-empty string. *)
Definition properlyCreated (campaignStorage : Storage) : Prop :=
  map_Forall (λ _ c, 0 < goal c ∧ ∃ s, proposer c = PrincipalString s ∧ s ≠ "")
    campaignStorage.

(** The characters of the ASCII range; on texts made of them
    [String.prototype.trim] strips exactly the white space of [Js.trim]. *)
Definition isAscii (a : Ascii.ascii) : bool :=
  (Ascii.nat_of_ascii a <? 128)%nat.

(** ** The canister on binary64 numbers

    [createCampaign] and [donateCampaign] once more, with [number] as the
    IEEE 754 binary64 value it is: sums and products are rounded to the
    nearest representable value (ties to even), comparisons with NaN are
    false.  The other operations do no arithmetic.  [now] is
    [Number(ic.time())]. *)

Module Binary64.

Abbreviation number := spec_float.

(** [x + y] and [x * y] *)
Definition add : number → number → number := SFadd 53 1024.
Definition mul : number → number → number := SFmul 53 1024.


(** The binary64 value nearest to a whole number, as a numeric literal
    denotes it. *)
Definition ofZ (z : Z) : number := binary_normalize 53 1024 z 0 false.

(** The whole number a value is, when it is one. *)
Definition toZ (x : number) : option Z :=
  match x with
  | S754_zero _ => Some 0
  | S754_finite s m e =>
      let v := if s then Z.neg m else Z.pos m in
      if 0 <=? e then Some (v * 2 ^ e)
      else if v mod 2 ^ (- e) =? 0 then Some (v / 2 ^ (- e))
      else None
  | _ => None
  end.

(** [x > y], [x >= y], [x <= y], [x < y] *)
Definition gt (x y : number) : bool := SFltb y x.
Definition ge (x y : number) : bool := SFleb y x.
Definition le (x y : number) : bool := SFleb x y.

(** [!x]: the zeros and NaN. *)
Definition falsyNumber (x : number) : bool :=
  match x with
  | S754_zero _ | S754_nan => true
  | _ => false
  end.

Record Donor := mkDonor {
  donorId : Principal;
  amount : number
}.

Record Campaign := mkCampaign {
  id : string;
  proposer : Principal;
  title : string;
  description : string;
  goal : number;
  totalDonations : number;
  deadline : number;
  donors : list Donor
}.

Abbreviation Storage := (gmap string Campaign).

Definition setTitle (c : Campaign) (t : string) : Campaign :=
  mkCampaign (id c) (proposer c) t (description c) (goal c)
             (totalDonations c) (deadline c) (donors c).

Definition setDescription (c : Campaign) (d : string) : Campaign :=
  mkCampaign (id c) (proposer c) (title c) d (goal c)
             (totalDonations c) (deadline c) (donors c).

Definition setTotalDonations (c : Campaign) (n : number) : Campaign :=
  mkCampaign (id c) (proposer c) (title c) (description c) (goal c)
             n (deadline c) (donors c).

Definition pushDonor (c : Campaign) (d : Donor) : Campaign :=
  mkCampaign (id c) (proposer c) (title c) (description c) (goal c)
             (totalDonations c) (deadline c) (donors c ++ [d]).

Definition createCampaign (now : number) (rnd : string)
    (_proposer : Principal) (_title _description : string)
    (_goal _deadline : number)
    (campaignStorage : Storage) : Result Campaign string * Storage :=
  if falsy _proposer || typeofNotString _proposer then
    (Err InvalidProposer, campaignStorage)
  else if bool_decide (_title = "")
          || (String.length (Js.trim _title) =? 0)%nat then
    (Err MissingTitle, campaignStorage)
  else if bool_decide (_description = "")
          || (String.length (Js.trim _description) =? 0)%nat then
    (Err MissingDescription, campaignStorage)
  else if falsyNumber _goal || le _goal (ofZ 0) then
    (Err InvalidGoal, campaignStorage)
  else
    let presentTime := now in
    let nanoSeconds := mul (mul _deadline (ofZ 86400)) (ofZ 1000000000) in
    let endDate := add presentTime nanoSeconds in
    let campaign :=
      {| id := generateId rnd;
         proposer := _proposer;
         title := _title;
         description := _description;
         goal := _goal;
         totalDonations := ofZ 0;
         deadline := endDate;
         donors := [] |} in
    (Ok campaign, <[id campaign := campaign]> campaignStorage).

Definition updateOnlyTitleandDescription
    (_campaignId _title _description : string)
    (campaignStorage : Storage) : Result Campaign string * Storage :=
  match campaignStorage !! _campaignId with
  | Some existingCampaign =>
      let existingCampaign := setTitle existingCampaign _title in
      let existingCampaign := setDescription existingCampaign _description in
      (Ok existingCampaign, <[_campaignId := existingCampaign]> campaignStorage)
  | None => (Err (NotFound _campaignId), campaignStorage)
  end.

Definition donateCampaign (now : number)
    (_campaignId : string) (_donorId : Principal) (_amount : number)
    (campaignStorage : Storage) : Result Campaign string * Storage :=
  match campaignStorage !! _campaignId with
  | Some existingCampaign =>
      if gt now (deadline existingCampaign) then
        (Err CampaignEnded, campaignStorage)
      else
        let newDonor := {| donorId := _donorId; amount := _amount |} in
        let existingCampaign := pushDonor existingCampaign newDonor in
        if ge (goal existingCampaign)
              (add (totalDonations existingCampaign) _amount)
        then
          let existingCampaign :=
            setTotalDonations existingCampaign
              (add (totalDonations existingCampaign) _amount) in
          (Ok existingCampaign,
           <[_campaignId := existingCampaign]> campaignStorage)
        else (Err GoalExceeded, campaignStorage)
  | None => (Err (NotFound _campaignId), campaignStorage)
  end.

Definition getCampaign (campaignId : string) (campaignStorage : Storage)
    : Result Campaign string * Storage :=
  if bool_decide (campaignId = "") || negb (Js.testId campaignId) then
    (Err InvalidId, campaignStorage)
  else
    match campaignStorage !! campaignId with
    | Some existingCampaign => (Ok existingCampaign, campaignStorage)
    | None => (Err (NotFound campaignId), campaignStorage)
    end.

Definition getDeadlineByCampaignId (campaignId : string)
    (campaignStorage : Storage) : Result number string * Storage :=
  if bool_decide (campaignId = "") || negb (Js.testId campaignId) then
    (Err InvalidId, campaignStorage)
  else
    match campaignStorage !! campaignId with
    | Some existingCampaign => (Ok (deadline existingCampaign), campaignStorage)
    | None => (Err DeadlineNotFound, campaignStorage)
    end.

Definition deleteCampaign (campaignId : string) (campaignStorage : Storage)
    : Result Campaign string * Storage :=
  if bool_decide (campaignId = "") || negb (Js.testId campaignId) then
    (Err InvalidId, campaignStorage)
  else
    match campaignStorage !! campaignId with
    | Some deletedCampaign =>
        (Ok deletedCampaign, delete campaignId campaignStorage)
    | None => (Err (NotFound campaignId), campaignStorage)
    end.

(** One call of the canister, with its clock reading and draw. *)
Inductive Call :=
| CreateCampaign (now : number) (rnd : string) (_proposer : Principal)
    (_title _description : string) (_goal _deadline : number)
| UpdateOnlyTitleandDescription (_campaignId _title _description : string)
| DonateCampaign (now : number) (_campaignId : string) (_donorId : Principal)
    (_amount : number)
| GetCampaign (campaignId : string)
| GetDeadlineByCampaignId (campaignId : string)
| DeleteCampaign (campaignId : string).

Definition exec (call : Call) (campaignStorage : Storage) : Storage :=
  match call with
  | CreateCampaign now rnd p t d g dl =>
      snd (createCampaign now rnd p t d g dl campaignStorage)
  | UpdateOnlyTitleandDescription i t d =>
      snd (updateOnlyTitleandDescription i t d campaignStorage)
  | DonateCampaign now i p a => snd (donateCampaign now i p a campaignStorage)
  | GetCampaign i => snd (getCampaign i campaignStorage)
  | GetDeadlineByCampaignId i => snd (getDeadlineByCampaignId i campaignStorage)
  | DeleteCampaign i => snd (deleteCampaign i campaignStorage)
  end.

Fixpoint run (calls : list Call) (campaignStorage : Storage) : Storage :=
  match calls with
  | [] => campaignStorage
  | call :: rest => run rest (exec call campaignStorage)
  end.

(** A donation as it arrives: clock reading, donor, amount. *)
Record Donation := mkDonation {
  arrival : number;
  giver : Principal;
  gift : number
}.

Definition entry (d : Donation) : Donor :=
  {| donorId := giver d; amount := gift d |}.

(** Donating [ds] one after the other to one campaign: the results of the
    calls, in order, and the storage at the end. *)
Fixpoint donateAll (_campaignId : string) (ds : list Donation)
    (campaignStorage : Storage)
    : list (Result Campaign string) * Storage :=
  match ds with
  | [] => ([], campaignStorage)
  | d :: rest =>
      let '(r, campaignStorage) :=
        donateCampaign (arrival d) _campaignId (giver d) (gift d)
          campaignStorage in
      let '(rs, campaignStorage) := donateAll _campaignId rest campaignStorage in
      (r :: rs, campaignStorage)
  end.

(** The donations of a sequence whose call was answered with [Ok]. *)
Fixpoint acceptedOf (results : list (Result Campaign string))
    (ds : list Donation) : list Donation :=
  match results, ds with
  | r :: results', d :: ds' =>
      if isOk r then d :: acceptedOf results' ds' else acceptedOf results' ds'
  | _, _ => []
  end.

(** Amounts added one by one, from the left, as [+=] does. *)
Definition running (start : number) (amounts : list number) : number :=
  foldl add start amounts.

(** The record an accepted donation stores. *)
Definition credited (c : Campaign) (_donorId : Principal) (_amount : number)
    : Campaign :=
  let c := pushDonor c {| donorId := _donorId; amount := _amount |} in
  setTotalDonations c (add (totalDonations c) _amount).

(** Inputs that pass the four checks of [createCampaign]. *)
Definition accepts (_proposer : Principal) (_title _description : string)
    (_goal : number) : bool :=
  negb (falsy _proposer || typeofNotString _proposer)
  && negb (bool_decide (_title = "")
           || (String.length (Js.trim _title) =? 0)%nat)
  && negb (bool_decide (_description = "")
           || (String.length (Js.trim _description) =? 0)%nat)
  && negb (falsyNumber _goal || le _goal (ofZ 0)).

(** The record [createCampaign] builds. *)
Definition fresh (now : number) (rnd : string) (_proposer : Principal)
    (_title _description : string) (_goal _deadline : number) : Campaign :=
  {| id := generateId rnd;
     proposer := _proposer;
     title := _title;
     description := _description;
     goal := _goal;
     totalDonations := ofZ 0;
     deadline := add now (mul (mul _deadline (ofZ 86400)) (ofZ 1000000000));
     donors := [] |}.

(** [totalDonations] is what adding the amounts in [donors] one by one to
    zero gives. *)
Definition balanced (campaignStorage : Storage) : Prop :=
  map_Forall
    (λ _ c, totalDonations c = running (ofZ 0) (map amount (donors c)))
    campaignStorage.

(** *** Examples *)

(** A campaign with goal 2^53 that has received 2^53. *)
Definition brimful : Storage :=
  run [CreateCampaign (ofZ 1000) "0.12345678" alice "Well" "A village well"
         (ofZ (2 ^ 53)) (ofZ 1);
       DonateCampaign (ofZ 2000) "12345" bob (ofZ (2 ^ 53))] ∅.

(** A campaign with goal 2^54 + 12, without donations. *)
Definition roomy : Storage :=
  run [CreateCampaign (ofZ 1000) "0.12345678" alice "Well" "A village well"
         (ofZ (2 ^ 54 + 12)) (ofZ 1)] ∅.

Definition threes : list Donation :=
  [mkDonation (ofZ 2000) bob (ofZ (2 ^ 54)); mkDonation (ofZ 2001) bob (ofZ 3);
   mkDonation (ofZ 2002) carol (ofZ 3); mkDonation (ofZ 2003) bob (ofZ 3)].

(** The records of the two examples. *)
Definition fullWell : Campaign :=
  credited
    (fresh (ofZ 1000) "0.12345678" alice "Well" "A village well"
       (ofZ (2 ^ 53)) (ofZ 1))
    bob (ofZ (2 ^ 53)).

Definition roomyWell : Campaign :=
  fresh (ofZ 1000) "0.12345678" alice "Well" "A village well"
    (ofZ (2 ^ 54 + 12)) (ofZ 1).


End Binary64.

(** * Properties *)

(** ** Unfolding the operations on a stored campaign *)

Section Lookup.

Context (campaignStorage : Storage) (campaignId : string) (c : Campaign).
Hypothesis stored : campaignStorage !! campaignId = Some c.

Lemma donateCampaign_ended now p a :
  now > deadline c →
  donateCampaign now campaignId p a campaignStorage
  = (Err CampaignEnded, campaignStorage).
Proof using stored.
  intros late. unfold donateCampaign. rewrite stored.
  destruct (Z.gtb_spec now (deadline c)); [done | lia].
Qed.

Lemma donateCampaign_exceeded now p a :
  now <= deadline c → totalDonations c + a > goal c →
  donateCampaign now campaignId p a campaignStorage
  = (Err GoalExceeded, campaignStorage).
Proof using stored.
  intros open over. unfold donateCampaign. rewrite stored.
  destruct (Z.gtb_spec now (deadline c)); [lia |]. simpl.
  destruct (Z.geb_spec (goal c) (totalDonations c + a)); [lia | done].
Qed.

Lemma donateCampaign_accepted now p a :
  now <= deadline c → totalDonations c + a <= goal c →
  donateCampaign now campaignId p a campaignStorage
  = (Ok (credited c p a), <[campaignId := credited c p a]> campaignStorage).
Proof using stored.
  intros open fits. unfold donateCampaign. rewrite stored.
  destruct (Z.gtb_spec now (deadline c)); [lia |]. simpl.
  destruct (Z.geb_spec (goal c) (totalDonations c + a)); [done | lia].
Qed.

(** The three ways a donation to a stored campaign can go. *)
Lemma donateCampaign_cases now p a :
  (now > deadline c ∧
   donateCampaign now campaignId p a campaignStorage
   = (Err CampaignEnded, campaignStorage))
  ∨ (now <= deadline c ∧ totalDonations c + a > goal c ∧
     donateCampaign now campaignId p a campaignStorage
     = (Err GoalExceeded, campaignStorage))
  ∨ (now <= deadline c ∧ totalDonations c + a <= goal c ∧
     donateCampaign now campaignId p a campaignStorage
     = (Ok (credited c p a),
        <[campaignId := credited c p a]> campaignStorage)).
Proof using stored.
  destruct (Z_lt_le_dec (deadline c) now) as [late | open].
  - left. split; [lia |]. apply donateCampaign_ended. lia.
  - right. destruct (Z_lt_le_dec (goal c) (totalDonations c + a)).
    + left. split_and!; [done | lia |].
      apply donateCampaign_exceeded; lia.
    + right. split_and!; [done | done |].
      by apply donateCampaign_accepted.
Qed.

End Lookup.

Lemma donateCampaign_missing now campaignId p a (campaignStorage : Storage) :
  campaignStorage !! campaignId = None →
  donateCampaign now campaignId p a campaignStorage
  = (Err (NotFound campaignId), campaignStorage).
Proof. intros missing. unfold donateCampaign. by rewrite missing. Qed.

(** A donation that is turned down leaves the storage as it was. *)
Lemma donateCampaign_err_storage now campaignId p a (campaignStorage : Storage) e :
  fst (donateCampaign now campaignId p a campaignStorage) = Err e →
  snd (donateCampaign now campaignId p a campaignStorage) = campaignStorage.
Proof.
  destruct (campaignStorage !! campaignId) as [c |] eqn:look.
  - destruct (donateCampaign_cases _ _ _ look now p a)
      as [[_ ->] | [(_ & _ & ->) | (_ & _ & ->)]]; simpl; [done | done |].
    discriminate.
  - by rewrite (donateCampaign_missing _ _ _ _ _ look).
Qed.

Lemma credited_fields c p a :
  id (credited c p a) = id c
  ∧ proposer (credited c p a) = proposer c
  ∧ title (credited c p a) = title c
  ∧ description (credited c p a) = description c
  ∧ goal (credited c p a) = goal c
  ∧ deadline (credited c p a) = deadline c
  ∧ totalDonations (credited c p a) = totalDonations c + a
  ∧ donors (credited c p a) = donors c ++ [mkDonor p a].
Proof. by repeat split. Qed.

Lemma createCampaign_accepts now rnd p t d g dl (campaignStorage : Storage) :
  accepts p t d g = true →
  createCampaign now rnd p t d g dl campaignStorage
  = (Ok (fresh now rnd p t d g dl),
     <[generateId rnd := fresh now rnd p t d g dl]> campaignStorage).
Proof.
  unfold accepts, createCampaign. intros ok.
  repeat (apply andb_prop in ok as [ok ?]).
  repeat match goal with
         | H : negb ?b = true |- _ =>
             apply negb_true_iff in H; rewrite H; clear H
         end.
  reflexivity.
Qed.

Lemma createCampaign_rejects now rnd p t d g dl (campaignStorage : Storage) :
  accepts p t d g = false →
  ∃ e, createCampaign now rnd p t d g dl campaignStorage
       = (Err e, campaignStorage).
Proof.
  unfold accepts, createCampaign. intros no.
  destruct (falsy p || typeofNotString p); [by eexists |].
  destruct (bool_decide (t = "") || _); [by eexists |].
  destruct (bool_decide (d = "") || _); [by eexists |].
  destruct ((g =? 0) || (g <=? 0)); [by eexists | discriminate].
Qed.

Lemma accepts_goal p t d g : accepts p t d g = true → 0 < g.
Proof.
  unfold accepts. intros ok. apply andb_prop in ok as [_ ok].
  apply negb_true_iff, orb_false_iff in ok as [_ ok]. lia.
Qed.

(** Whatever the outcome, [createCampaign] stores at most one record, under
    the generated identifier. *)
Lemma createCampaign_storage now rnd p t d g dl (campaignStorage : Storage) :
  snd (createCampaign now rnd p t d g dl campaignStorage)
  = if accepts p t d g
    then <[generateId rnd := fresh now rnd p t d g dl]> campaignStorage
    else campaignStorage.
Proof.
  destruct (accepts p t d g) eqn:ok.
  - by rewrite createCampaign_accepts.
  - by destruct (createCampaign_rejects now rnd p t d g dl campaignStorage ok)
      as [e ->].
Qed.

(** On a stored campaign the earlier copies donate as [src/index.ts]
    does; the copies differ in the wording of the not-found message only. *)
Lemma earlier_donateCampaign_stored
    now campaignId p a (campaignStorage : Storage) c :
  campaignStorage !! campaignId = Some c →
  Earlier.donateCampaign now campaignId p a campaignStorage
  = donateCampaign now campaignId p a campaignStorage.
Proof.
  intros stored. unfold Earlier.donateCampaign, donateCampaign.
  by rewrite stored.
Qed.

(** ** Donations that are turned down *)

(** C6. A donation to a stored campaign is answered with the
    campaign-ended error exactly when the clock is past the deadline; the
    storage, hence [donors] and [totalDonations] of the record, is then
    unchanged; a donation arriving at the deadline itself is not turned
    down as ended. *)
Theorem campaign_ended_iff_past_deadline
    (campaignStorage : Storage) campaignId c now p a :
  campaignStorage !! campaignId = Some c →
  let out := donateCampaign now campaignId p a campaignStorage in
  (fst out = Err CampaignEnded ↔ now > deadline c)
  ∧ (now > deadline c →
     snd out = campaignStorage ∧ snd out !! campaignId = Some c)
  ∧ (now = deadline c → fst out ≠ Err CampaignEnded).
Proof.
  intros stored out. subst out.
  destruct (donateCampaign_cases _ _ _ stored now p a)
    as [[late ->] | [(open & _ & ->) | (open & _ & ->)]]; simpl.
  - split_and!; [done | done | lia].
  - split_and!; [| lia |].
    + split; [| lia]. intros bad. by simplify_eq.
    + intros _ bad. by simplify_eq.
  - split_and!; [| lia | done]. split; [done | lia].
Qed.

Lemma campaign_ended_iff_past_deadline_witness :
  let out := donateCampaign 86400000001000 "12345" bob 10 opened in
  (fst out = Err CampaignEnded ↔ 86400000001000 > deadline well)
  ∧ (86400000001000 > deadline well →
     snd out = opened ∧ snd out !! "12345" = Some well)
  ∧ (86400000001000 = deadline well → fst out ≠ Err CampaignEnded).
Proof.
  apply (campaign_ended_iff_past_deadline opened "12345" well
           86400000001000 bob 10).
  vm_compute. reflexivity.
Defined.

(** C2, as the canister has it. [donateCampaign] does not look at the sign
    of the amount: a donation of zero or less to a stored campaign that
    arrives in time and keeps [totalDonations] within [goal] is accepted,
    its entry appended and its amount added.  Every donation that is
    answered with an error leaves the storage completely unchanged. *)
Theorem rejected_donation_keeps_storage
    (campaignStorage : Storage) campaignId now p a :
  let out := donateCampaign now campaignId p a campaignStorage in
  (∀ e, fst out = Err e → snd out = campaignStorage)
  ∧ (∀ c, campaignStorage !! campaignId = Some c →
          a <= 0 → now <= deadline c → totalDonations c + a <= goal c →
          out = (Ok (credited c p a),
                 <[campaignId := credited c p a]> campaignStorage)).
Proof.
  intros out. subst out. split.
  - intros e. apply donateCampaign_err_storage.
  - intros c stored _ open fits. by apply donateCampaign_accepted.
Qed.

Lemma rejected_donation_keeps_storage_witness :
  snd (donateCampaign 2000 "12345" bob 101 opened) = opened
  ∧ donateCampaign 2000 "12345" bob (-5) opened
    = (Ok (credited well bob (-5)),
       <["12345" := credited well bob (-5)]> opened).
Proof.
  split.
  - apply (proj1 (rejected_donation_keeps_storage opened "12345" 2000 bob 101)
             GoalExceeded).
    vm_compute. reflexivity.
  - apply (proj2 (rejected_donation_keeps_storage opened "12345" 2000 bob (-5))
             well).
    + vm_compute. reflexivity.
    + vm_compute. discriminate.
    + vm_compute. discriminate.
    + vm_compute. discriminate.
Defined.

(** C2 as stated fails on the example: a donation of 0 is accepted and
    stored; the call does not fail, and the storage is not what it was. *)
Lemma zero_amount_is_accepted :
  opened !! "12345" = Some well
  ∧ donateCampaign 2000 "12345" bob 0 opened
    = (Ok (credited well bob 0), <["12345" := credited well bob 0]> opened)
  ∧ snd (donateCampaign 2000 "12345" bob 0 opened) ≠ opened
  ∧ donors (credited well bob 0) = [mkDonor bob 0].
Proof.
  split_and!.
  - vm_compute. reflexivity.
  - apply donateCampaign_accepted; vm_compute; [reflexivity | discriminate..].
  - intros same. apply (f_equal (λ m : Storage, m !! "12345")) in same.
    vm_compute in same. discriminate.
  - reflexivity.
Qed.

(** ** Updating title and description *)

(** C7. On a stored campaign, [updateOnlyTitleandDescription] stores and
    returns the record with the new title and description; [goal],
    [deadline], [donors], [totalDonations], [proposer] and [id] are those of
    the record before the call, and no other identifier is touched. *)
Theorem update_touches_title_and_description_only
    (campaignStorage : Storage) campaignId c t d :
  campaignStorage !! campaignId = Some c →
  ∃ c',
    updateOnlyTitleandDescription campaignId t d campaignStorage
    = (Ok c', <[campaignId := c']> campaignStorage)
    ∧ title c' = t ∧ description c' = d
    ∧ goal c' = goal c
    ∧ deadline c' = deadline c
    ∧ donors c' = donors c
    ∧ totalDonations c' = totalDonations c
    ∧ proposer c' = proposer c
    ∧ id c' = id c
    ∧ ∀ other, other ≠ campaignId →
        snd (updateOnlyTitleandDescription campaignId t d campaignStorage)
          !! other
        = campaignStorage !! other.
Proof.
  intros stored. unfold updateOnlyTitleandDescription. rewrite stored.
  eexists. split; [reflexivity |]. split_and!; try reflexivity.
  intros other differs. simpl. by rewrite lookup_insert_ne.
Qed.

Lemma update_touches_title_and_description_only_witness :
  ∃ c',
    updateOnlyTitleandDescription "12345" "Pump" "" opened
    = (Ok c', <["12345" := c']> opened)
    ∧ title c' = "Pump" ∧ description c' = ""
    ∧ goal c' = goal well
    ∧ deadline c' = deadline well
    ∧ donors c' = donors well
    ∧ totalDonations c' = totalDonations well
    ∧ proposer c' = proposer well
    ∧ id c' = id well
    ∧ ∀ other, other ≠ "12345" →
        snd (updateOnlyTitleandDescription "12345" "Pump" "" opened) !! other
        = opened !! other.
Proof.
  apply (update_touches_title_and_description_only opened "12345" well).
  vm_compute. reflexivity.
Defined.

(** ** Deleting *)

(** C9. After a successful [deleteCampaign] the identifier is absent from
    the storage: [getCampaign] answers not-found, and so do the deadline
    query, the update and the donation. *)
Theorem deleted_campaign_is_not_found
    (campaignStorage campaignStorage' : Storage) campaignId c :
  deleteCampaign campaignId campaignStorage = (Ok c, campaignStorage') →
  campaignStorage' !! campaignId = None
  ∧ getCampaign campaignId campaignStorage'
    = (Err (NotFound campaignId), campaignStorage')
  ∧ getDeadlineByCampaignId campaignId campaignStorage'
    = (Err DeadlineNotFound, campaignStorage')
  ∧ (∀ t d, updateOnlyTitleandDescription campaignId t d campaignStorage'
            = (Err (NotFound campaignId), campaignStorage'))
  ∧ (∀ now p a, donateCampaign now campaignId p a campaignStorage'
                = (Err (NotFound campaignId), campaignStorage')).
Proof.
  unfold deleteCampaign, getCampaign, getDeadlineByCampaignId.
  destruct (bool_decide (campaignId = "") || negb (Js.testId campaignId))
    eqn:shape; [discriminate |].
  destruct (campaignStorage !! campaignId) eqn:look; [| discriminate].
  intros [= <- <-].
  assert (delete campaignId campaignStorage !! campaignId = None) as gone
    by apply lookup_delete_eq.
  rewrite gone. split_and!; try done.
  - intros t d. unfold updateOnlyTitleandDescription. by rewrite gone.
  - intros now p a. by apply donateCampaign_missing.
Qed.

Lemma deleted_campaign_is_not_found_witness :
  let gone : Storage := ∅ in
  gone !! "12345" = None
  ∧ getCampaign "12345" gone = (Err (NotFound "12345"), gone)
  ∧ getDeadlineByCampaignId "12345" gone = (Err DeadlineNotFound, gone)
  ∧ (∀ t d, updateOnlyTitleandDescription "12345" t d gone
            = (Err (NotFound "12345"), gone))
  ∧ (∀ now p a, donateCampaign now "12345" p a gone
                = (Err (NotFound "12345"), gone)).
Proof.
  apply (deleted_campaign_is_not_found opened ∅ "12345" well).
  vm_compute. reflexivity.
Defined.

(** ** Creating *)

(** What the four checks of [createCampaign] ask for. *)
Lemma accepts_spec p t d g :
  accepts p t d g = true
  ↔ (∃ s, p = PrincipalString s ∧ s ≠ "")
    ∧ Js.trim t ≠ "" ∧ Js.trim d ≠ "" ∧ 0 < g.
Proof.
  assert (∀ s, negb (bool_decide (s = "")
                     || (String.length (Js.trim s) =? 0)%nat) = true
               ↔ Js.trim s ≠ "") as text.
  { intros s. rewrite negb_true_iff, orb_false_iff, bool_decide_eq_false.
    rewrite Nat.eqb_neq. split.
    - intros [_ long] empty. by rewrite empty in long.
    - intros some. split.
      + intros ->. by apply some.
      + by destruct (Js.trim s). }
  unfold accepts. rewrite !andb_true_iff, !text. split.
  - intros [[[who ?] ?] amount]. split_and!; try done.
    + destruct p as [o | s]; [done |]. exists s. split; [done |].
      simpl in who. rewrite orb_false_r in who.
      by apply negb_true_iff, bool_decide_eq_false in who.
    + apply negb_true_iff, orb_false_iff in amount as [_ ?]. lia.
  - intros ((s & -> & some) & ? & ? & positive). split_and!; try done.
    + simpl. rewrite orb_false_r. by apply negb_true_iff, bool_decide_eq_false.
    + apply negb_true_iff, orb_false_iff. split; lia.
Qed.

(** The earlier copies accept every proposer that is present, objects of
    the [Principal] class included. *)
Lemma earlier_createCampaign_present
    now rnd p t d g dl (campaignStorage : Storage) :
  falsy p = false → Js.trim t ≠ "" → Js.trim d ≠ "" → 0 < g →
  Earlier.createCampaign now rnd p t d g dl campaignStorage
  = (Ok (fresh now rnd p t d g dl),
     <[generateId rnd := fresh now rnd p t d g dl]> campaignStorage).
Proof.
  intros present some_t some_d positive. unfold Earlier.createCampaign.
  rewrite present.
  assert (∀ s, Js.trim s ≠ "" →
               bool_decide (s = "")
               || (String.length (Js.trim s) =? 0)%nat = false) as text.
  { intros s some. apply orb_false_iff. split.
    - apply bool_decide_eq_false. intros ->. by apply some.
    - apply Nat.eqb_neq. by destruct (Js.trim s). }
  rewrite (text t some_t), (text d some_d).
  assert ((g =? 0) || (g <=? 0) = false) as ->
    by (apply orb_false_iff; split; lia).
  reflexivity.
Qed.

(** C4, on [src/index.ts]. A proposer that arrives as an object of the
    [Principal] class, the shape the declared parameter type has at run
    time, is present, and yet [createCampaign] answers "Invalid proposer"
    and stores nothing, whatever the other arguments are. *)
Theorem principal_object_is_turned_down
    now rnd text t d g dl (campaignStorage : Storage) :
  falsy (PrincipalObject text) = false
  ∧ createCampaign now rnd (PrincipalObject text) t d g dl campaignStorage
    = (Err InvalidProposer, campaignStorage).
Proof. by split. Qed.

(** C8, as the canister has it. A successful [createCampaign] stores its
    record under the identifier cut from the draw, present or not; every
    other identifier keeps its record, and if the drawn identifier was not
    in use then every record stored before is stored after. *)
Theorem create_inserts_under_drawn_id
    now rnd p t d g dl (campaignStorage campaignStorage' : Storage) c :
  createCampaign now rnd p t d g dl campaignStorage = (Ok c, campaignStorage') →
  id c = generateId rnd
  ∧ campaignStorage' = <[generateId rnd := c]> campaignStorage
  ∧ (∀ other, other ≠ generateId rnd →
              campaignStorage' !! other = campaignStorage !! other)
  ∧ (campaignStorage !! generateId rnd = None →
     ∀ k c0, campaignStorage !! k = Some c0 → campaignStorage' !! k = Some c0).
Proof.
  intros created. destruct (accepts p t d g) eqn:ok.
  - rewrite (createCampaign_accepts _ _ _ _ _ _ _ _ ok) in created.
    injection created as <- <-. split_and!; try done.
    + intros other differs. by rewrite lookup_insert_ne.
    + intros unused k c0 stored. rewrite lookup_insert_ne; [done |].
      intros <-. congruence.
  - destruct (createCampaign_rejects now rnd p t d g dl campaignStorage ok)
      as [e turned]. congruence.
Qed.

Lemma create_inserts_under_drawn_id_witness :
  id well = generateId "0.12345678"
  ∧ opened = <[generateId "0.12345678" := well]> (∅ : Storage)
  ∧ (∀ other, other ≠ generateId "0.12345678" →
              opened !! other = (∅ : Storage) !! other)
  ∧ ((∅ : Storage) !! generateId "0.12345678" = None →
     ∀ k c0, (∅ : Storage) !! k = Some c0 → opened !! k = Some c0).
Proof.
  apply (create_inserts_under_drawn_id
           1000 "0.12345678" alice "Well" "A village well" 100 1).
  vm_compute. reflexivity.
Defined.

(** C8 as stated fails on the example, with a draw that starts with the
    five digits of an identifier in use: the call succeeds, the identifier was present at insertion time, and the
    record that was stored under it is replaced. *)
Lemma colliding_draw_overwrites :
  opened !! generateId "0.12345999" = Some well
  ∧ createCampaign 5000 "0.12345999" carol "Road" "A road to the well" 7 3
      opened
    = (Ok road, <["12345" := road]> opened)
  ∧ snd (createCampaign 5000 "0.12345999" carol "Road" "A road to the well"
           7 3 opened) !! "12345" = Some road
  ∧ road ≠ well.
Proof.
  split_and!.
  - vm_compute. reflexivity.
  - by apply createCampaign_accepts.
  - vm_compute. reflexivity.
  - discriminate.
Qed.

(** With a string for proposer, the record of a successful call is the
    fresh one: nothing donated, no donors, the deadline the given number of
    days after the clock reading, stored under its identifier. *)
Lemma createCampaign_record
    now rnd p t d g dl (campaignStorage : Storage) :
  accepts p t d g = true →
  ∃ c, createCampaign now rnd p t d g dl campaignStorage
       = (Ok c, <[id c := c]> campaignStorage)
       ∧ totalDonations c = 0
       ∧ donors c = []
       ∧ deadline c = now + dl * 86400 * 10 ^ 9
       ∧ <[id c := c]> campaignStorage !! id c = Some c.
Proof.
  intros ok. exists (fresh now rnd p t d g dl).
  rewrite (createCampaign_accepts _ _ _ _ _ _ _ _ ok).
  split_and!; try done. apply lookup_insert_eq.
Qed.

(** ** The running total *)

Lemma exec_effect call (campaignStorage : Storage) :
  effect campaignStorage call (exec call campaignStorage).
Proof.
  destruct call as [now rnd p t d g dl | k t d | now k p a | k | k | k]; simpl.
  - rewrite createCampaign_storage. destruct (accepts p t d g) eqn:ok.
    + by constructor.
    + constructor.
  - unfold updateOnlyTitleandDescription.
    destruct (campaignStorage !! k) eqn:look; simpl; by constructor.
  - destruct (campaignStorage !! k) as [c |] eqn:look.
    + destruct (donateCampaign_cases _ _ _ look now p a)
        as [[_ ->] | [(_ & _ & ->) | (_ & ? & ->)]]; simpl; by constructor.
    + rewrite (donateCampaign_missing _ _ _ _ _ look). constructor.
  - unfold getCampaign. repeat case_match; constructor.
  - unfold getDeadlineByCampaignId. repeat case_match; constructor.
  - unfold deleteCampaign. repeat case_match; simpl; constructor.
Qed.

Lemma exec_withinGoal call (campaignStorage : Storage) :
  withinGoal campaignStorage → withinGoal (exec call campaignStorage).
Proof.
  unfold withinGoal. intros inv.
  destruct (exec_effect call campaignStorage)
    as [| ? ? ? ? ? ? ? ok | ? c' ? ? stored | ? ? c' ? ? stored fits |];
    [done | | | |].
  - apply map_Forall_insert_2; [| done]. simpl.
    apply accepts_goal in ok. lia.
  - apply map_Forall_insert_2; [| done]. apply (inv _ _ stored).
  - apply map_Forall_insert_2; [| done]. simpl. lia.
  - by apply map_Forall_delete.
Qed.

Lemma exec_nonNegative call (campaignStorage : Storage) :
  givesNothingBack call →
  nonNegative campaignStorage → nonNegative (exec call campaignStorage).
Proof.
  unfold nonNegative. intros gives inv.
  destruct (exec_effect call campaignStorage)
    as [| | ? c' ? ? stored | ? ? c' ? ? stored fits |]; [done | | | |].
  - by apply map_Forall_insert_2.
  - apply map_Forall_insert_2; [| done]. apply (inv _ _ stored).
  - apply map_Forall_insert_2; [| done]. simpl in *.
    pose proof (inv _ _ stored) as so_far. simpl in so_far. lia.
  - by apply map_Forall_delete.
Qed.

Lemma run_withinGoal calls (campaignStorage : Storage) :
  withinGoal campaignStorage → withinGoal (run calls campaignStorage).
Proof.
  revert campaignStorage.
  induction calls as [| call rest IH]; intros campaignStorage inv; [done |].
  simpl. by apply IH, exec_withinGoal.
Qed.

Lemma run_nonNegative calls (campaignStorage : Storage) :
  Forall givesNothingBack calls →
  nonNegative campaignStorage → nonNegative (run calls campaignStorage).
Proof.
  intros gives. revert campaignStorage.
  induction gives as [| call rest here _ IH]; intros campaignStorage inv;
    [done |].
  simpl. by apply IH, exec_nonNegative.
Qed.

Lemma exec_monotone call (campaignStorage : Storage) k c c' :
  givesNothingBack call →
  drawsUnused campaignStorage call →
  campaignStorage !! k = Some c →
  exec call campaignStorage !! k = Some c' →
  totalDonations c <= totalDonations c'.
Proof.
  intros gives unused before after.
  destruct (exec_effect call campaignStorage)
    as [| ? rnd | k0 c0 ? ? stored | ? k0 c0 ? ? stored fits | k0].
  - assert (c' = c) as -> by congruence. lia.
  - simpl in unused.
    rewrite lookup_insert_ne in after by (intros <-; congruence).
    assert (c' = c) as -> by congruence. lia.
  - destruct (decide (k0 = k)) as [-> | differs].
    + rewrite lookup_insert_eq in after. injection after as <-.
      assert (c0 = c) as -> by congruence. simpl. lia.
    + rewrite lookup_insert_ne in after by done.
      assert (c' = c) as -> by congruence. lia.
  - destruct (decide (k0 = k)) as [-> | differs].
    + rewrite lookup_insert_eq in after. injection after as <-.
      assert (c0 = c) as -> by congruence. simpl in *. lia.
    + rewrite lookup_insert_ne in after by done.
      assert (c' = c) as -> by congruence. lia.
  - destruct (decide (k0 = k)) as [-> | differs].
    + by rewrite lookup_delete_eq in after.
    + rewrite lookup_delete_ne in after by done.
      assert (c' = c) as -> by congruence. lia.
Qed.

(** C3, as the canister has it. In every storage reached from the empty
    one by a sequence of calls: a campaign starts with nothing donated;
    [totalDonations] never exceeds [goal]; if no call of the sequence
    donated a negative amount, [totalDonations] is not negative; and a
    further call which neither donates a negative amount nor creates a
    campaign under an identifier in use does not lower [totalDonations] of
    any stored record. *)
Theorem total_donations_bounds (calls : list Call) :
  let campaignStorage := run calls ∅ in
  (∀ now rnd p t d g dl c,
     fst (createCampaign now rnd p t d g dl campaignStorage) = Ok c →
     totalDonations c = 0
     ∧ snd (createCampaign now rnd p t d g dl campaignStorage) !! id c
       = Some c)
  ∧ (∀ k c, campaignStorage !! k = Some c → totalDonations c <= goal c)
  ∧ (Forall givesNothingBack calls →
     ∀ k c, campaignStorage !! k = Some c → 0 <= totalDonations c)
  ∧ (∀ call k c c',
       givesNothingBack call → drawsUnused campaignStorage call →
       campaignStorage !! k = Some c →
       exec call campaignStorage !! k = Some c' →
       totalDonations c <= totalDonations c').
Proof.
  intros campaignStorage. split_and!.
  - intros now rnd p t d g dl c created.
    destruct (accepts p t d g) eqn:ok.
    + rewrite (createCampaign_accepts _ _ _ _ _ _ _ _ ok) in *.
      injection created as <-. split; [done |]. apply lookup_insert_eq.
    + destruct (createCampaign_rejects now rnd p t d g dl campaignStorage ok)
        as [e turned]. rewrite turned in created. discriminate.
  - intros k c. apply (run_withinGoal calls ∅). apply map_Forall_empty.
  - intros gives k c.
    apply (run_nonNegative calls ∅ gives). apply map_Forall_empty.
  - intros call k c c'. apply exec_monotone.
Qed.

Lemma total_donations_bounds_witness :
  let calls :=
    [CreateCampaign 1000 "0.12345678" alice "Well" "A village well" 100 1;
     DonateCampaign 2000 "12345" bob 60] in
  Forall givesNothingBack calls
  ∧ 0 <= totalDonations (credited well bob 60) <= goal (credited well bob 60)
  ∧ totalDonations (credited well bob 60)
    <= totalDonations (credited (credited well bob 60) carol 40).
Proof.
  intros calls.
  destruct (total_donations_bounds calls) as (_ & within & positive & grows).
  assert (Forall givesNothingBack calls) as gives
    by (repeat constructor; vm_compute; discriminate).
  assert (run calls ∅ !! "12345" = Some (credited well bob 60)) as stored
    by (vm_compute; reflexivity).
  split_and!.
  - exact gives.
  - exact (positive gives "12345" _ stored).
  - exact (within "12345" _ stored).
  - apply (grows (DonateCampaign 3000 "12345" carol 40) "12345").
    + vm_compute. discriminate.
    + exact I.
    + exact stored.
    + vm_compute. reflexivity.
Defined.

(** C3 as stated fails on the example: a donation of -5 to the fresh
    campaign is accepted, and [totalDonations] drops from 0 to -5, below
    zero. *)
Lemma negative_amount_lowers_total :
  let calls :=
    [CreateCampaign 1000 "0.12345678" alice "Well" "A village well" 100 1] in
  let give_back := DonateCampaign 2000 "12345" bob (-5) in
  run calls ∅ !! "12345" = Some well
  ∧ run (calls ++ [give_back]) ∅ !! "12345" = Some (credited well bob (-5))
  ∧ totalDonations (credited well bob (-5)) < totalDonations well
  ∧ ¬ (0 <= totalDonations (credited well bob (-5))
       <= goal (credited well bob (-5))).
Proof.
  split_and!.
  - vm_compute. reflexivity.
  - vm_compute. reflexivity.
  - vm_compute. reflexivity.
  - vm_compute. intros [bad _]. by apply bad.
Qed.

(** * Further properties of the canister *)

(** ** Strings: [trim], [substring] and the identifier format *)

Lemma trimStart_empty_iff s :
  Js.trimStart s = "" ↔ Js.every Ascii.is_space s = true.
Proof.
  induction s as [| a s IH]; simpl; [done |].
  destruct (Ascii.is_space a); simpl; [done |].
  split; discriminate.
Qed.

Lemma trimStart_idempotent s : Js.trimStart (Js.trimStart s) = Js.trimStart s.
Proof.
  induction s as [| a s IH]; simpl; [done |].
  destruct (Ascii.is_space a) eqn:space; [done |].
  simpl. by rewrite space.
Qed.

Lemma every_rev_app p s1 s2 :
  Js.every p (String.rev_app s1 s2) = Js.every p s1 && Js.every p s2.
Proof.
  revert s2. induction s1 as [| a s1 IH]; intros s2; simpl; [done |].
  rewrite IH. simpl. destruct (p a), (Js.every p s1); simpl; try done.
Qed.

Lemma rev_app_empty s1 s2 : String.rev_app s1 s2 = "" → s1 = "" ∧ s2 = "".
Proof.
  revert s2. induction s1 as [| a s1 IH]; intros s2; simpl; [done |].
  intros empty. by destruct (IH _ empty) as [_ ?].
Qed.

(** [trim] leaves nothing of a string exactly when the string consists of
    white space only (the empty string included). *)
Lemma trim_empty_iff_blank s :
  Js.trim s = "" ↔ Js.every Ascii.is_space s = true.
Proof.
  unfold Js.trim, Js.trimEnd, String.rev. split.
  - intros empty. apply rev_app_empty in empty as [empty _].
    apply trimStart_empty_iff in empty.
    rewrite every_rev_app, andb_true_r in empty.
    apply trimStart_empty_iff in empty.
    rewrite trimStart_idempotent in empty. by apply trimStart_empty_iff.
  - intros blank. apply trimStart_empty_iff in blank. by rewrite blank.
Qed.

Lemma length_drop n s :
  String.length (Js.drop n s) = (String.length s - n)%nat.
Proof.
  revert s. induction n as [| n IH]; intros [| a s]; simpl; by try lia.
Qed.

Lemma length_take n s :
  String.length (Js.take n s) = (n `min` String.length s)%nat.
Proof.
  revert s. induction n as [| n IH]; intros [| a s]; simpl; try done.
  by rewrite IH.
Qed.

Lemma every_take p n s :
  Js.every p s = true → Js.every p (Js.take n s) = true.
Proof.
  revert s. induction n as [| n IH]; intros [| a s]; simpl; try done.
  intros [-> ?]%andb_prop. simpl. by apply IH.
Qed.

Lemma every_weaken (p q : Ascii.ascii → bool) s :
  (∀ a, p a = true → q a = true) →
  Js.every p s = true → Js.every q s = true.
Proof.
  intros weaker. induction s as [| a s IH]; simpl; [done |].
  intros [here rest]%andb_prop. by rewrite (weaker _ here), IH.
Qed.

(** X1. The identifier cut from a draw has at most five characters: as
    many as the text of the draw has after its first two, up to five. *)
Theorem generateId_length rnd :
  String.length (generateId rnd) = (5 `min` (String.length rnd - 2))%nat.
Proof. unfold generateId, Js.substring. by rewrite length_take, length_drop. Qed.

(** X2. A draw printed as "0." followed by at least five decimal digits
    gives an identifier of the format the lookups of [src/index.ts] ask
    for: the first five digits. *)
Theorem generateId_of_decimal_draw digits :
  Js.every isDigit digits = true →
  (5 <= String.length digits)%nat →
  generateId ("0." +:+ digits) = Js.take 5 digits
  ∧ Js.testId (generateId ("0." +:+ digits)) = true.
Proof.
  intros decimal long.
  assert (generateId ("0." +:+ digits) = Js.take 5 digits) as -> by done.
  split; [done |]. unfold Js.testId. apply andb_true_intro. split.
  - rewrite length_take. apply Nat.eqb_eq. lia.
  - apply every_take. revert decimal. apply every_weaken.
    intros a digit. unfold Js.hexLowerOrDigit. unfold isDigit in digit.
    by rewrite digit.
Qed.

Lemma generateId_of_decimal_draw_witness :
  generateId ("0." +:+ "7302945518") = Js.take 5 "7302945518"
  ∧ Js.testId (generateId ("0." +:+ "7302945518")) = true.
Proof.
  apply (generateId_of_decimal_draw "7302945518").
  - vm_compute. reflexivity.
  - vm_compute. lia.
Defined.

(** The test [!s || s.trim().length === 0] of [createCampaign]. *)
Lemma blank_check s :
  bool_decide (s = "") || (String.length (Js.trim s) =? 0)%nat
  = Js.every Ascii.is_space s.
Proof.
  destruct (Js.every Ascii.is_space s) eqn:blank.
  - apply trim_empty_iff_blank in blank. rewrite blank. apply orb_true_r.
  - apply orb_false_iff. split.
    + apply bool_decide_eq_false. by intros ->.
    + apply Nat.eqb_neq. destruct (Js.trim s) eqn:trimmed; [| done].
      apply trim_empty_iff_blank in trimmed. congruence.
Qed.

(** ** Creating: validation, reading back, deleting *)

(** X3. [createCampaign] answers with the message of the first check that
    fails, in the order proposer, title, description, goal, and stores
    nothing: a proposer that is missing or not a string; else a title of
    white space only; else, for a title of ASCII characters, a description
    of white space only; else, for a description of ASCII characters too, a
    goal of zero or less. *)
Theorem createCampaign_first_failure
    now rnd p t d g dl (campaignStorage : Storage) :
  let out := createCampaign now rnd p t d g dl campaignStorage in
  let proposerFails := falsy p || typeofNotString p in
  let blank s := Js.every Ascii.is_space s in
  let ascii s := Js.every isAscii s in
  (proposerFails = true → out = (Err InvalidProposer, campaignStorage))
  ∧ (proposerFails = false → blank t = true →
     out = (Err MissingTitle, campaignStorage))
  ∧ (proposerFails = false → ascii t = true → blank t = false →
     blank d = true →
     out = (Err MissingDescription, campaignStorage))
  ∧ (proposerFails = false → ascii t = true → blank t = false →
     ascii d = true → blank d = false → g <= 0 →
     out = (Err InvalidGoal, campaignStorage)).
Proof.
  intros out proposerFails blank ascii. subst out proposerFails blank ascii.
  unfold createCampaign. rewrite !blank_check. split_and!.
  - by intros ->.
  - by intros -> ->.
  - by intros -> _ -> ->.
  - intros -> _ -> _ -> low.
    assert ((g =? 0) || (g <=? 0) = true) as ->; [| done].
    apply orb_true_iff. right. lia.
Qed.

Lemma createCampaign_first_failure_witness :
  createCampaign 1000 "0.12345678" bob "Well" "A village well" 100 1 opened
  = (Err InvalidProposer, opened)
  ∧ createCampaign 1000 "0.12345678" alice "   " "A village well" 100 1 opened
    = (Err MissingTitle, opened)
  ∧ createCampaign 1000 "0.12345678" alice "Well" "" 100 1 opened
    = (Err MissingDescription, opened)
  ∧ createCampaign 1000 "0.12345678" alice "Well" "A village well" (-1) 1
      opened
    = (Err InvalidGoal, opened).
Proof.
  split_and!.
  - apply (createCampaign_first_failure
             1000 "0.12345678" bob "Well" "A village well" 100 1 opened).
    vm_compute. reflexivity.
  - apply (createCampaign_first_failure
             1000 "0.12345678" alice "   " "A village well" 100 1 opened);
      vm_compute; reflexivity.
  - apply (createCampaign_first_failure
             1000 "0.12345678" alice "Well" "" 100 1 opened);
      vm_compute; reflexivity.
  - apply (createCampaign_first_failure
             1000 "0.12345678" alice "Well" "A village well" (-1) 1 opened);
      vm_compute; (reflexivity || discriminate).
Defined.



(** X5. When the text of the draw has fewer than seven characters (0.5,
    0.25, ...), the identifier has fewer than five: the campaign is stored,
    donations to it and updates of it go through, but [getCampaign],
    [getDeadlineByCampaignId] and [deleteCampaign] turn its identifier down
    as invalid, so it can be neither read nor removed. *)
Theorem short_draw_campaign_is_out_of_reach
    now rnd p t d g dl (campaignStorage : Storage) :
  accepts p t d g = true →
  (String.length rnd < 7)%nat →
  let c := fresh now rnd p t d g dl in
  let stored := snd (createCampaign now rnd p t d g dl campaignStorage) in
  stored !! id c = Some c
  ∧ getCampaign (id c) stored = (Err InvalidId, stored)
  ∧ getDeadlineByCampaignId (id c) stored = (Err InvalidId, stored)
  ∧ deleteCampaign (id c) stored = (Err InvalidId, stored)
  ∧ (∀ t' d', isOk (fst (updateOnlyTitleandDescription (id c) t' d' stored))
              = true)
  ∧ (∀ giver a, 0 <= dl → a <= g →
       isOk (fst (donateCampaign now (id c) giver a stored)) = true).
Proof.
  intros ok short c stored. subst stored.
  rewrite (createCampaign_accepts _ _ _ _ _ _ _ _ ok).
  change (id c) with (generateId rnd). cbn [snd]. fold c.
  set (stored := <[generateId rnd := c]> campaignStorage).
  assert (Js.testId (generateId rnd) = false) as shape.
  { unfold Js.testId. apply andb_false_iff. left. apply Nat.eqb_neq.
    unfold generateId, Js.substring. rewrite length_take, length_drop. lia. }
  assert (stored !! generateId rnd = Some c) as look
    by apply lookup_insert_eq.
  unfold getCampaign, getDeadlineByCampaignId, deleteCampaign.
  rewrite shape, orb_true_r. split_and!; try done.
  - intros t' d'. unfold updateOnlyTitleandDescription. by rewrite look.
  - intros giver a later fits.
    rewrite (donateCampaign_accepted _ _ _ look); [done | |]; simpl; lia.
Qed.

Lemma short_draw_campaign_is_out_of_reach_witness :
  let c := fresh 1000 "0.5" alice "Well" "A village well" 100 1 in
  let stored :=
    snd (createCampaign 1000 "0.5" alice "Well" "A village well" 100 1 ∅) in
  stored !! "5" = Some c
  ∧ getCampaign "5" stored = (Err InvalidId, stored)
  ∧ getDeadlineByCampaignId "5" stored = (Err InvalidId, stored)
  ∧ deleteCampaign "5" stored = (Err InvalidId, stored)
  ∧ (∀ t' d', isOk (fst (updateOnlyTitleandDescription "5" t' d' stored))
              = true)
  ∧ (∀ giver a, 0 <= 1 → a <= 100 →
       isOk (fst (donateCampaign 1000 "5" giver a stored)) = true).
Proof.
  apply (short_draw_campaign_is_out_of_reach
           1000 "0.5" alice "Well" "A village well" 100 1 ∅).
  - vm_compute. reflexivity.
  - vm_compute. lia.
Defined.

(** X6. Creating a campaign under an identifier that is not in use and has
    the five-character format, then deleting that identifier, hands back
    the created record and restores the storage as it was before. *)
Theorem create_then_delete_restores
    now rnd p t d g dl (campaignStorage : Storage) :
  accepts p t d g = true →
  campaignStorage !! generateId rnd = None →
  Js.testId (generateId rnd) = true →
  deleteCampaign (generateId rnd)
    (snd (createCampaign now rnd p t d g dl campaignStorage))
  = (Ok (fresh now rnd p t d g dl), campaignStorage).
Proof.
  intros ok unused shape.
  rewrite (createCampaign_accepts _ _ _ _ _ _ _ _ ok). simpl.
  unfold deleteCampaign. rewrite shape. simpl.
  assert (bool_decide (generateId rnd = "") = false) as ->.
  { apply bool_decide_eq_false. intros empty. by rewrite empty in shape. }
  simpl. rewrite lookup_insert_eq. by rewrite delete_insert_id.
Qed.

Lemma create_then_delete_restores_witness :
  deleteCampaign (generateId "0.12345678") opened = (Ok well, ∅).
Proof.
  apply (create_then_delete_restores
           1000 "0.12345678" alice "Well" "A village well" 100 1 ∅).
  - vm_compute. reflexivity.
  - vm_compute. reflexivity.
  - vm_compute. reflexivity.
Defined.

(** X7. A successful [createCampaign] grows the storage by one record
    when the drawn identifier is not in use, and leaves the number of
    records as it is when the identifier is in use. *)
Theorem create_grows_storage_unless_in_use
    now rnd p t d g dl (campaignStorage : Storage) :
  accepts p t d g = true →
  size (snd (createCampaign now rnd p t d g dl campaignStorage))
  = match campaignStorage !! generateId rnd with
    | Some _ => size campaignStorage
    | None => S (size campaignStorage)
    end.
Proof.
  intros ok. rewrite (createCampaign_accepts _ _ _ _ _ _ _ _ ok). simpl.
  destruct (campaignStorage !! generateId rnd) eqn:look.
  - apply map_size_insert_Some. by eexists.
  - by apply map_size_insert_None.
Qed.

Lemma create_grows_storage_unless_in_use_witness :
  size (snd (createCampaign 5000 "0.12345999" carol "Road"
               "A road to the well" 7 3 opened))
  = match opened !! generateId "0.12345999" with
    | Some _ => size opened
    | None => S (size opened)
    end.
Proof.
  apply (create_grows_storage_unless_in_use
           5000 "0.12345999" carol "Road" "A road to the well" 7 3 opened).
  vm_compute. reflexivity.
Defined.

(** ** What every reachable storage satisfies *)

Section Invariant.

Context (P : string → Campaign → Prop).
Hypothesis fresh_ok :
  ∀ now rnd p t d g dl,
    accepts p t d g = true → P (generateId rnd) (fresh now rnd p t d g dl).
Hypothesis update_ok :
  ∀ k c t d, P k c → P k (setDescription (setTitle c t) d).
Hypothesis credit_ok :
  ∀ k c p a, P k c → totalDonations c + a <= goal c → P k (credited c p a).

Lemma exec_map_Forall call (campaignStorage : Storage) :
  map_Forall P campaignStorage → map_Forall P (exec call campaignStorage).
Proof using fresh_ok update_ok credit_ok.
  intros inv.
  destruct (exec_effect call campaignStorage)
    as [| ? ? ? ? ? ? ? ok | k c ? ? stored | ? k c ? ? stored fits |];
    [done | | | |].
  - apply map_Forall_insert_2; [by apply fresh_ok | done].
  - apply map_Forall_insert_2; [| done]. apply update_ok, (inv _ _ stored).
  - apply map_Forall_insert_2; [| done].
    apply credit_ok; [apply (inv _ _ stored) | done].
  - by apply map_Forall_delete.
Qed.

Lemma run_map_Forall calls (campaignStorage : Storage) :
  map_Forall P campaignStorage → map_Forall P (run calls campaignStorage).
Proof using fresh_ok update_ok credit_ok.
  revert campaignStorage.
  induction calls as [| call rest IH]; intros campaignStorage inv; [done |].
  simpl. by apply IH, exec_map_Forall.
Qed.

End Invariant.

(** X8. In every storage reached from the empty one by a sequence of
    calls, each record is stored under its own [id]. *)
Theorem reachable_record_is_keyed_by_id (calls : list Call) k c :
  run calls ∅ !! k = Some c → id c = k.
Proof.
  revert k c. change (keyedById (run calls ∅)). unfold keyedById.
  apply run_map_Forall; try done.
Qed.

Lemma reachable_record_is_keyed_by_id_witness :
  id (credited well bob 60) = "12345".
Proof.
  apply (reachable_record_is_keyed_by_id
           [CreateCampaign 1000 "0.12345678" alice "Well" "A village well"
              100 1;
            DonateCampaign 2000 "12345" bob 60]).
  vm_compute. reflexivity.
Defined.

(** X10. In every storage reached from the empty one by a sequence of
    calls of [src/index.ts], each record has a positive goal and a
    non-empty string for proposer. *)
Theorem reachable_goal_positive_proposer_string (calls : list Call) k c :
  run calls ∅ !! k = Some c →
  0 < goal c ∧ ∃ s, proposer c = PrincipalString s ∧ s ≠ "".
Proof.
  revert k c. change (properlyCreated (run calls ∅)). unfold properlyCreated.
  apply run_map_Forall; try done.
  intros now rnd p t d g dl ok. simpl.
  by apply accepts_spec in ok as (who & _ & _ & positive).
Qed.

Lemma reachable_goal_positive_proposer_string_witness :
  0 < goal well ∧ ∃ s, proposer well = PrincipalString s ∧ s ≠ "".
Proof.
  apply (reachable_goal_positive_proposer_string
           [CreateCampaign 1000 "0.12345678" alice "Well" "A village well"
              100 1] "12345").
  vm_compute. reflexivity.
Defined.

(** ** What a single call leaves alone *)

(** X11. A call changes the storage under one identifier at most, the one
    it names (for a creation: the one cut from its draw); the record under
    every other identifier is the same before and after. *)
Theorem call_touches_one_identifier call (campaignStorage : Storage) other :
  other ≠ touched call →
  exec call campaignStorage !! other = campaignStorage !! other.
Proof.
  intros differs.
  destruct (exec_effect call campaignStorage); simpl in differs; try done.
  - by rewrite lookup_insert_ne.
  - by rewrite lookup_insert_ne.
  - by rewrite lookup_insert_ne.
  - by rewrite lookup_delete_ne.
Qed.

Lemma call_touches_one_identifier_witness :
  exec (DeleteCampaign "54321") opened !! "12345" = opened !! "12345".
Proof.
  apply (call_touches_one_identifier (DeleteCampaign "54321") opened "12345").
  vm_compute. discriminate.
Defined.

(** X12. A call that does not create a campaign under an identifier in
    use leaves [id], [proposer], [goal] and [deadline] of every record
    that stays stored as they were, and its [donors] only grow at the
    end: entries are never removed, reordered or changed. *)
Theorem stored_record_is_stable
    call (campaignStorage : Storage) k c c' :
  drawsUnused campaignStorage call →
  campaignStorage !! k = Some c →
  exec call campaignStorage !! k = Some c' →
  id c' = id c ∧ proposer c' = proposer c
  ∧ goal c' = goal c ∧ deadline c' = deadline c
  ∧ donors c `prefix_of` donors c'.
Proof.
  intros unused before after.
  assert (∀ c0 : Campaign, c0 = c ∨ (∃ t d, c0 = setDescription (setTitle c t) d)
                           ∨ (∃ p a, c0 = credited c p a) →
          id c0 = id c ∧ proposer c0 = proposer c
          ∧ goal c0 = goal c ∧ deadline c0 = deadline c
          ∧ donors c `prefix_of` donors c0) as shapes.
  { intros c0 [-> | [(t & d & ->) | (p & a & ->)]]; simpl;
      split_and!; try done. by apply prefix_app_r. }
  apply shapes.
  destruct (exec_effect call campaignStorage)
    as [| ? rnd | k0 c0 t d stored | ? k0 c0 p a stored fits | k0].
  - left. congruence.
  - simpl in unused.
    rewrite lookup_insert_ne in after by (intros <-; congruence).
    left. congruence.
  - destruct (decide (k0 = k)) as [-> | differs].
    + rewrite lookup_insert_eq in after. right. left. exists t, d.
      congruence.
    + rewrite lookup_insert_ne in after by done. left. congruence.
  - destruct (decide (k0 = k)) as [-> | differs].
    + rewrite lookup_insert_eq in after. right. right. exists p, a.
      congruence.
    + rewrite lookup_insert_ne in after by done. left. congruence.
  - destruct (decide (k0 = k)) as [-> | differs].
    + by rewrite lookup_delete_eq in after.
    + rewrite lookup_delete_ne in after by done. left. congruence.
Qed.

Lemma stored_record_is_stable_witness :
  let c' := credited well bob 60 in
  id c' = id well ∧ proposer c' = proposer well
  ∧ goal c' = goal well ∧ deadline c' = deadline well
  ∧ donors well `prefix_of` donors c'.
Proof.
  apply (stored_record_is_stable (DonateCampaign 2000 "12345" bob 60)
           opened "12345").
  - exact I.
  - vm_compute. reflexivity.
  - vm_compute. reflexivity.
Defined.

(** ** Reading and deleting *)

(** X13. The two queries never change the storage; [getCampaign] hands
    out a record exactly when the identifier has the five-character format
    and the record is stored under it, and [getDeadlineByCampaignId]
    answers a deadline exactly when [getCampaign] hands out a record with
    that deadline. *)
Theorem queries_read_the_stored_record k (campaignStorage : Storage) :
  snd (getCampaign k campaignStorage) = campaignStorage
  ∧ snd (getDeadlineByCampaignId k campaignStorage) = campaignStorage
  ∧ (∀ c, fst (getCampaign k campaignStorage) = Ok c
          ↔ Js.testId k = true ∧ campaignStorage !! k = Some c)
  ∧ (∀ dl, fst (getDeadlineByCampaignId k campaignStorage) = Ok dl
           ↔ ∃ c, fst (getCampaign k campaignStorage) = Ok c
                  ∧ deadline c = dl).
Proof.
  unfold getCampaign, getDeadlineByCampaignId.
  destruct (Js.testId k) eqn:shape.
  - assert (bool_decide (k = "") = false) as ->.
    { apply bool_decide_eq_false. intros empty. by rewrite empty in shape. }
    simpl. destruct (campaignStorage !! k) as [c |]; simpl.
    + split_and!; try done.
      * intros c0. split; [by intros [= ->] | by intros [_ [= ->]]].
      * intros dl. split; [intros [= <-]; by exists c |].
        by intros (c0 & [= <-] & <-).
    + split_and!; try done.
      * intros c0. split; [done | by intros [_ ?]].
      * intros dl. split; [done | by intros (c0 & ? & _)].
  - rewrite orb_true_r. simpl. split_and!; try done.
    + intros c0. split; [done | by intros [? _]].
    + intros dl. split; [done | by intros (c0 & ? & _)].
Qed.

Lemma queries_read_the_stored_record_witness :
  snd (getCampaign "12345" opened) = opened
  ∧ fst (getCampaign "12345" opened) = Ok well
  ∧ fst (getDeadlineByCampaignId "12345" opened) = Ok (deadline well).
Proof.
  destruct (queries_read_the_stored_record "12345" opened)
    as (unchanged & _ & reads & answers).
  split_and!.
  - exact unchanged.
  - apply reads. split; vm_compute; reflexivity.
  - apply answers. exists well. split; [| reflexivity].
    apply reads. split; vm_compute; reflexivity.
Defined.

(** X14. [deleteCampaign] answers what [getCampaign] would have answered
    just before: the stored record, or the same error.  When it answers
    with an error the storage is unchanged; when it hands out a record,
    that record was stored under the identifier and is removed. *)
Theorem delete_answers_as_get k (campaignStorage : Storage) :
  fst (deleteCampaign k campaignStorage) = fst (getCampaign k campaignStorage)
  ∧ (∀ e, fst (deleteCampaign k campaignStorage) = Err e →
          snd (deleteCampaign k campaignStorage) = campaignStorage)
  ∧ (∀ c, fst (deleteCampaign k campaignStorage) = Ok c →
          campaignStorage !! k = Some c
          ∧ snd (deleteCampaign k campaignStorage) = delete k campaignStorage).
Proof.
  unfold deleteCampaign, getCampaign.
  destruct (bool_decide (k = "") || negb (Js.testId k)); simpl.
  - split_and!; try done.
  - destruct (campaignStorage !! k) as [c |]; simpl; split_and!; try done.
    by intros c0 [= ->].
Qed.

Lemma delete_answers_as_get_witness :
  opened !! "12345" = Some well
  ∧ snd (deleteCampaign "12345" opened) = delete "12345" opened
  ∧ snd (deleteCampaign "54321" opened) = opened.
Proof.
  destruct (delete_answers_as_get "12345" opened) as (_ & _ & removes).
  destruct (delete_answers_as_get "54321" opened) as (_ & keeps & _).
  split_and!.
  - apply (removes well). vm_compute. reflexivity.
  - apply (removes well). vm_compute. reflexivity.
  - apply (keeps (NotFound "54321")). vm_compute. reflexivity.
Defined.

(** ** Updating and donating together *)

Lemma update_storage k t d (campaignStorage : Storage) :
  snd (updateOnlyTitleandDescription k t d campaignStorage)
  = match campaignStorage !! k with
    | Some c => <[k := setDescription (setTitle c t) d]> campaignStorage
    | None => campaignStorage
    end.
Proof.
  unfold updateOnlyTitleandDescription.
  by destruct (campaignStorage !! k).
Qed.

Lemma donate_storage now k p a (campaignStorage : Storage) :
  snd (donateCampaign now k p a campaignStorage)
  = match campaignStorage !! k with
    | Some c =>
        if (now <=? deadline c) && (totalDonations c + a <=? goal c)
        then <[k := credited c p a]> campaignStorage
        else campaignStorage
    | None => campaignStorage
    end.
Proof.
  destruct (campaignStorage !! k) as [c |] eqn:look.
  - destruct (donateCampaign_cases _ _ _ look now p a)
      as [[late ->] | [(open & over & ->) | (open & fits & ->)]]; simpl.
    + destruct (Z.leb_spec now (deadline c)); [lia | done].
    + destruct (Z.leb_spec (totalDonations c + a) (goal c)); [lia |].
      by rewrite andb_false_r.
    + destruct (Z.leb_spec now (deadline c)); [| lia].
      destruct (Z.leb_spec (totalDonations c + a) (goal c)); [done | lia].
  - by rewrite (donateCampaign_missing _ _ _ _ _ look).
Qed.

(** X15. Of two updates of one campaign in a row the second wins: the
    answer and the storage are those of the second update alone. *)
Theorem second_update_wins k t1 d1 t2 d2 (campaignStorage : Storage) :
  updateOnlyTitleandDescription k t2 d2
    (snd (updateOnlyTitleandDescription k t1 d1 campaignStorage))
  = updateOnlyTitleandDescription k t2 d2 campaignStorage.
Proof.
  unfold updateOnlyTitleandDescription.
  destruct (campaignStorage !! k) as [c |] eqn:look; simpl.
  - rewrite lookup_insert_eq. by rewrite insert_insert_eq.
  - by rewrite look.
Qed.

(** X16. A donation and an update can be made in either order: to the
    same campaign or to different ones, the storage at the end is the
    same. *)
Theorem donation_and_update_commute
    now k1 p a k2 t d (campaignStorage : Storage) :
  snd (donateCampaign now k1 p a
         (snd (updateOnlyTitleandDescription k2 t d campaignStorage)))
  = snd (updateOnlyTitleandDescription k2 t d
           (snd (donateCampaign now k1 p a campaignStorage))).
Proof.
  rewrite !update_storage, !donate_storage.
  destruct (decide (k1 = k2)) as [-> | differs].
  - destruct (campaignStorage !! k2) as [c |] eqn:look.
    + rewrite lookup_insert_eq. simpl.
      destruct ((now <=? deadline c) && (totalDonations c + a <=? goal c)).
      * rewrite lookup_insert_eq. by rewrite !insert_insert_eq.
      * by rewrite look.
    + by rewrite look.
  - destruct (campaignStorage !! k2) as [c2 |] eqn:look2;
      destruct (campaignStorage !! k1) as [c1 |] eqn:look1.
    + rewrite lookup_insert_ne, look1 by done.
      destruct ((now <=? deadline c1) && (totalDonations c1 + a <=? goal c1)).
      * rewrite lookup_insert_ne, look2 by done.
        by apply insert_insert_ne.
      * by rewrite look2.
    + rewrite lookup_insert_ne, look1 by done. by rewrite look2.
    + destruct ((now <=? deadline c1) && (totalDonations c1 + a <=? goal c1)).
      * by rewrite lookup_insert_ne, look2.
      * by rewrite look2.
    + by rewrite look2.
Qed.

(** ** The earlier copies *)

(** X18. In the earlier copies, which do not test the format of the
    identifier, a campaign that was created is read back and can be
    deleted whatever its draw was. *)
Theorem earlier_created_campaign_is_in_reach
    now rnd p t d g dl (campaignStorage : Storage) :
  falsy p = false → Js.trim t ≠ "" → Js.trim d ≠ "" → 0 < g →
  let c := fresh now rnd p t d g dl in
  let stored :=
    snd (Earlier.createCampaign now rnd p t d g dl campaignStorage) in
  Earlier.getCampaign (id c) stored = (Ok c, stored)
  ∧ Earlier.getDeadlineByCampaignId (id c) stored = (Ok (deadline c), stored)
  ∧ Earlier.deleteCampaign (id c) stored = (Ok c, delete (id c) stored).
Proof.
  intros present some_t some_d positive c stored. subst stored.
  rewrite (earlier_createCampaign_present _ _ _ _ _ _ _ _
             present some_t some_d positive).
  change (id c) with (generateId rnd). cbn [snd]. fold c.
  unfold Earlier.getCampaign, Earlier.getDeadlineByCampaignId,
    Earlier.deleteCampaign.
  by rewrite lookup_insert_eq.
Qed.

Lemma earlier_created_campaign_is_in_reach_witness :
  let c := fresh 1000 "0.5" bob "Well" "A village well" 100 1 in
  let stored :=
    snd (Earlier.createCampaign 1000 "0.5" bob "Well" "A village well"
           100 1 ∅) in
  Earlier.getCampaign (id c) stored = (Ok c, stored)
  ∧ Earlier.getDeadlineByCampaignId (id c) stored = (Ok (deadline c), stored)
  ∧ Earlier.deleteCampaign (id c) stored = (Ok c, delete (id c) stored).
Proof.
  apply (earlier_created_campaign_is_in_reach
           1000 "0.5" bob "Well" "A village well" 100 1 ∅).
  - vm_compute. reflexivity.
  - vm_compute. discriminate.
  - vm_compute. discriminate.
  - vm_compute. reflexivity.
Defined.

(** X19. [src/index.ts] and the earlier copies leave the same storage
    behind after an update and after a donation, and after a deletion
    under an identifier of the five-character format; under any other
    identifier [src/index.ts] deletes nothing while the earlier copies
    remove the record. *)
Theorem copies_agree_on_storage
    now k p a t d (campaignStorage : Storage) :
  snd (Earlier.updateOnlyTitleandDescription k t d campaignStorage)
  = snd (updateOnlyTitleandDescription k t d campaignStorage)
  ∧ snd (Earlier.donateCampaign now k p a campaignStorage)
    = snd (donateCampaign now k p a campaignStorage)
  ∧ (Js.testId k = true →
     snd (Earlier.deleteCampaign k campaignStorage)
     = snd (deleteCampaign k campaignStorage))
  ∧ (Js.testId k = false →
     snd (deleteCampaign k campaignStorage) = campaignStorage
     ∧ snd (Earlier.deleteCampaign k campaignStorage)
       = delete k campaignStorage).
Proof.
  split_and!.
  - unfold Earlier.updateOnlyTitleandDescription, updateOnlyTitleandDescription.
    by destruct (campaignStorage !! k).
  - destruct (campaignStorage !! k) as [c |] eqn:look.
    + by rewrite (earlier_donateCampaign_stored _ _ _ _ _ _ look).
    + rewrite (donateCampaign_missing _ _ _ _ _ look).
      unfold Earlier.donateCampaign. by rewrite look.
  - intros shape. unfold Earlier.deleteCampaign, deleteCampaign.
    rewrite shape.
    assert (bool_decide (k = "") = false) as ->.
    { apply bool_decide_eq_false. intros empty. by rewrite empty in shape. }
    simpl. by destruct (campaignStorage !! k).
  - intros shape. unfold Earlier.deleteCampaign, deleteCampaign.
    rewrite shape, orb_true_r. split; [done |].
    destruct (campaignStorage !! k) eqn:look; simpl; [done |].
    by rewrite delete_id.
Qed.

Lemma copies_agree_on_storage_witness :
  let stored :=
    snd (createCampaign 1000 "0.5" alice "Well" "A village well" 100 1 ∅) in
  snd (Earlier.deleteCampaign "12345" opened)
  = snd (deleteCampaign "12345" opened)
  ∧ snd (deleteCampaign "5" stored) = stored
  ∧ snd (Earlier.deleteCampaign "5" stored) = delete "5" stored.
Proof.
  intros stored. split.
  - apply (proj1 (proj2 (proj2
             (copies_agree_on_storage 0 "12345" bob 0 "" "" opened)))).
    vm_compute. reflexivity.
  - apply (proj2 (proj2 (proj2
             (copies_agree_on_storage 0 "5" bob 0 "" "" stored)))).
    vm_compute. reflexivity.
Defined.

(** X20. With a non-empty string for proposer, [createCampaign] of
    [src/index.ts] and of the earlier copies give the same answer and the
    same storage, whatever the other arguments are. *)
Theorem copies_agree_on_string_proposer
    now rnd s t d g dl (campaignStorage : Storage) :
  s ≠ "" →
  Earlier.createCampaign now rnd (PrincipalString s) t d g dl campaignStorage
  = createCampaign now rnd (PrincipalString s) t d g dl campaignStorage.
Proof.
  intros some. unfold Earlier.createCampaign, createCampaign. simpl.
  by rewrite (bool_decide_eq_false_2 _ some).
Qed.

Lemma copies_agree_on_string_proposer_witness :
  Earlier.createCampaign 1000 "0.12345678" alice "Well" "" 100 1 ∅
  = createCampaign 1000 "0.12345678" alice "Well" "" 100 1 ∅.
Proof.
  apply (copies_agree_on_string_proposer 1000 "0.12345678" "alice").
  discriminate.
Defined.

(** * Properties that depend on binary64 rounding *)

Module Binary64Facts.

Import Binary64.



Section Lookup.

Context (campaignStorage : Storage) (campaignId : string) (c : Campaign).
Hypothesis stored : campaignStorage !! campaignId = Some c.

Lemma binary64_donation_ended now p a :
  gt now (deadline c) = true →
  donateCampaign now campaignId p a campaignStorage
  = (Err CampaignEnded, campaignStorage).
Proof using stored.
  intros late. unfold donateCampaign. by rewrite stored, late.
Qed.

Lemma binary64_donation_exceeded now p a :
  gt now (deadline c) = false →
  ge (goal c) (add (totalDonations c) a) = false →
  donateCampaign now campaignId p a campaignStorage
  = (Err GoalExceeded, campaignStorage).
Proof using stored.
  intros open over. unfold donateCampaign. rewrite stored, open. simpl.
  by rewrite over.
Qed.

Lemma binary64_donation_accepted now p a :
  gt now (deadline c) = false →
  ge (goal c) (add (totalDonations c) a) = true →
  donateCampaign now campaignId p a campaignStorage
  = (Ok (credited c p a), <[campaignId := credited c p a]> campaignStorage).
Proof using stored.
  intros open fits. unfold donateCampaign. rewrite stored, open. simpl.
  by rewrite fits.
Qed.

(** The three ways a donation to a stored campaign can go. *)
Lemma binary64_donation_cases now p a :
  donateCampaign now campaignId p a campaignStorage
  = (Err CampaignEnded, campaignStorage)
  ∨ donateCampaign now campaignId p a campaignStorage
    = (Err GoalExceeded, campaignStorage)
  ∨ donateCampaign now campaignId p a campaignStorage
    = (Ok (credited c p a), <[campaignId := credited c p a]> campaignStorage).
Proof using stored.
  destruct (gt now (deadline c)) eqn:late.
  - left. by apply binary64_donation_ended.
  - right. destruct (ge (goal c) (add (totalDonations c) a)) eqn:fits.
    + right. by apply binary64_donation_accepted.
    + left. by apply binary64_donation_exceeded.
Qed.

End Lookup.

Lemma binary64_createCampaign_accepts
    now rnd p t d g dl (campaignStorage : Storage) :
  accepts p t d g = true →
  createCampaign now rnd p t d g dl campaignStorage
  = (Ok (fresh now rnd p t d g dl),
     <[generateId rnd := fresh now rnd p t d g dl]> campaignStorage).
Proof.
  unfold accepts, createCampaign. intros ok.
  repeat (apply andb_prop in ok as [ok ?]).
  repeat match goal with
         | H : negb ?b = true |- _ =>
             apply negb_true_iff in H; rewrite H; clear H
         end.
  reflexivity.
Qed.

(** ** A donation over the goal *)

(** C1, as the canister has it. A donation to a stored campaign that
    arrives in time and for which the test [goal >= totalDonations +
    amount], with the sum rounded to binary64 as the canister computes it,
    is false is answered with the goal-exceeded error, and the storage is
    left exactly as it was: the record under the identifier is still the
    old one, without a donor entry for this call. *)
Theorem goal_test_failing_keeps_record
    (campaignStorage : Storage) campaignId c now p a :
  campaignStorage !! campaignId = Some c →
  gt now (deadline c) = false →
  ge (goal c) (add (totalDonations c) a) = false →
  let out := donateCampaign now campaignId p a campaignStorage in
  fst out = Err GoalExceeded
  ∧ snd out = campaignStorage
  ∧ snd out !! campaignId = Some c.
Proof.
  intros stored open over out. subst out.
  rewrite (binary64_donation_exceeded _ _ _ stored now p a open over).
  by split_and!.
Qed.

Lemma goal_test_failing_keeps_record_witness :
  let out := donateCampaign (ofZ 3000) "12345" carol (ofZ 2) brimful in
  fst out = Err GoalExceeded
  ∧ snd out = brimful
  ∧ snd out !! "12345" = Some fullWell.
Proof.
  apply (goal_test_failing_keeps_record
           brimful "12345" fullWell (ofZ 3000) carol (ofZ 2)).
  - vm_compute. reflexivity.
  - vm_compute. reflexivity.
  - vm_compute. reflexivity.
Defined.

(** C1 as stated fails: the campaign has goal 2^53 and has received 2^53,
    the donation of 1 arrives in time and 2^53 + 1 is above the goal, yet
    the sum is rounded to 2^53, the call is answered with [Ok] and the
    record is stored with the donor entry of this call. *)
Lemma rounded_sum_passes_goal_test :
  brimful !! "12345" = Some fullWell
  ∧ toZ (totalDonations fullWell) = Some (2 ^ 53)
  ∧ toZ (goal fullWell) = Some (2 ^ 53)
  ∧ toZ (ofZ 1) = Some 1
  ∧ 2 ^ 53 + 1 > 2 ^ 53
  ∧ gt (ofZ 3000) (deadline fullWell) = false
  ∧ donateCampaign (ofZ 3000) "12345" carol (ofZ 1) brimful
    = (Ok (credited fullWell carol (ofZ 1)),
       <["12345" := credited fullWell carol (ofZ 1)]> brimful)
  ∧ donors (credited fullWell carol (ofZ 1))
    = donors fullWell ++ [mkDonor carol (ofZ 1)]
  ∧ snd (donateCampaign (ofZ 3000) "12345" carol (ofZ 1) brimful) ≠ brimful.
Proof.
  split_and!; try (vm_compute; reflexivity).
  intros same. apply (f_equal (λ m : Storage, m !! "12345")) in same.
  vm_compute in same. discriminate.
Qed.

(** ** Sequences of donations *)

Lemma binary64_donateAll_cons campaignId d rest (campaignStorage : Storage) :
  donateAll campaignId (d :: rest) campaignStorage
  = let out :=
      donateCampaign (arrival d) campaignId (giver d) (gift d)
        campaignStorage in
    (fst out :: fst (donateAll campaignId rest (snd out)),
     snd (donateAll campaignId rest (snd out))).
Proof.
  simpl. destruct (donateCampaign _ _ _ _ _) as [r st]. simpl.
  by destruct (donateAll campaignId rest st).
Qed.

(** What a sequence of donations leaves of itself in the record. *)
Lemma binary64_donateAll_recorded
    campaignId ds (campaignStorage : Storage) c :
  campaignStorage !! campaignId = Some c →
  let out := donateAll campaignId ds campaignStorage in
  let taken := acceptedOf (fst out) ds in
  length (fst out) = length ds
  ∧ ∃ c',
      snd out !! campaignId = Some c'
      ∧ totalDonations c' = running (totalDonations c) (map gift taken)
      ∧ donors c' = donors c ++ map entry taken
      ∧ title c' = title c ∧ description c' = description c
      ∧ goal c' = goal c ∧ deadline c' = deadline c.
Proof.
  intros stored out taken. subst taken out.
  revert campaignStorage c stored.
  induction ds as [| d rest IH]; intros campaignStorage c stored.
  - split; [done |]. exists c. simpl. rewrite app_nil_r. by split_and!.
  - rewrite binary64_donateAll_cons. cbn [fst snd].
    destruct (binary64_donation_cases _ _ _ stored
                (arrival d) (giver d) (gift d))
      as [-> | [-> | ->]]; cbn [fst snd acceptedOf isOk].
    + destruct (IH _ _ stored) as [count (c' & ? & ? & ? & ? & ? & ? & ?)].
      split; [simpl; by rewrite count |]. by exists c'.
    + destruct (IH _ _ stored) as [count (c' & ? & ? & ? & ? & ? & ? & ?)].
      split; [simpl; by rewrite count |]. by exists c'.
    + destruct (IH (<[campaignId := credited c (giver d) (gift d)]>
                      campaignStorage)
                   (credited c (giver d) (gift d)))
        as [count (c' & after & sums & entries & ? & ? & ? & ?)];
        [apply lookup_insert_eq |].
      split; [simpl; by rewrite count |].
      exists c'. simpl in *. split_and!; try done.
      by rewrite entries, <- app_assoc.
Qed.

Lemma acceptedOf_all (results : list (Result Campaign string)) ds :
  length results = length ds →
  forallb isOk results = true → acceptedOf results ds = ds.
Proof.
  revert ds. induction results as [| r results IH]; intros [| d ds];
    simpl; try done.
  intros [= count] [-> ?]%andb_prop. by rewrite IH.
Qed.

(** C5, as the canister has it. If every donation of a sequence to a
    stored campaign is accepted, the record stored afterwards has the
    entries of these donations appended to [donors] in the order of
    arrival, exactly these entries for a campaign that starts without
    donors, and its [totalDonations] is what adding the amounts one by one
    to the total before gives in binary64, each sum rounded. *)
Theorem accepted_donations_are_appended
    campaignId ds (campaignStorage : Storage) c :
  campaignStorage !! campaignId = Some c →
  let out := donateAll campaignId ds campaignStorage in
  forallb isOk (fst out) = true →
  ∃ c',
    snd out !! campaignId = Some c'
    ∧ donors c' = donors c ++ map entry ds
    ∧ totalDonations c' = running (totalDonations c) (map gift ds)
    ∧ goal c' = goal c ∧ deadline c' = deadline c
    ∧ (donors c = [] → donors c' = map entry ds).
Proof.
  intros stored out accepted. subst out.
  destruct (binary64_donateAll_recorded campaignId ds _ _ stored)
    as [count (c' & after & sums & entries & _ & _ & ? & ?)].
  rewrite (acceptedOf_all _ _ count accepted) in sums, entries.
  exists c'. split_and!; try done.
  intros nobody. by rewrite entries, nobody.
Qed.

Lemma accepted_donations_are_appended_witness :
  let out := donateAll "12345" threes roomy in
  ∃ c',
    snd out !! "12345" = Some c'
    ∧ donors c' = donors roomyWell ++ map entry threes
    ∧ totalDonations c' = running (totalDonations roomyWell) (map gift threes)
    ∧ goal c' = goal roomyWell ∧ deadline c' = deadline roomyWell
    ∧ (donors roomyWell = [] → donors c' = map entry threes).
Proof.
  apply (accepted_donations_are_appended "12345" threes roomy roomyWell).
  - vm_compute. reflexivity.
  - vm_compute. reflexivity.
Defined.

(** C5 as stated fails: the campaign has goal 2^54 + 12, the donations of
    2^54, 3, 3 and 3 arrive in time and are all accepted, and their sum
    2^54 + 9 is within the goal, yet the stored [totalDonations] is
    2^54 + 12. *)
Lemma rounded_total_is_not_the_sum :
  roomy !! "12345" = Some roomyWell
  ∧ toZ (goal roomyWell) = Some (2 ^ 54 + 12)
  ∧ map (λ d, toZ (gift d)) threes = [Some (2 ^ 54); Some 3; Some 3; Some 3]
  ∧ 2 ^ 54 + 3 + 3 + 3 <= 2 ^ 54 + 12
  ∧ forallb (λ d, le (arrival d) (deadline roomyWell)) threes = true
  ∧ forallb isOk (fst (donateAll "12345" threes roomy)) = true
  ∧ (snd (donateAll "12345" threes roomy) !! "12345"
     ≫= λ c, toZ (totalDonations c)) = Some (2 ^ 54 + 12)
  ∧ 2 ^ 54 + 12 ≠ 2 ^ 54 + 3 + 3 + 3.
Proof. split_and!; vm_compute; (reflexivity || discriminate). Qed.

(** X17. After any sequence of donations to a stored campaign, accepted or
    not, there is one answer per donation, and the stored record differs
    from the one before by the accepted donations only: their entries are
    appended to [donors] in the order of arrival and their amounts added
    to [totalDonations] one by one, each sum rounded to binary64; the
    donations that were turned down leave no trace. *)
Theorem only_accepted_donations_are_recorded
    campaignId ds (campaignStorage : Storage) c :
  campaignStorage !! campaignId = Some c →
  let out := donateAll campaignId ds campaignStorage in
  let taken := acceptedOf (fst out) ds in
  length (fst out) = length ds
  ∧ ∃ c',
      snd out !! campaignId = Some c'
      ∧ totalDonations c' = running (totalDonations c) (map gift taken)
      ∧ donors c' = donors c ++ map entry taken
      ∧ title c' = title c ∧ description c' = description c
      ∧ goal c' = goal c ∧ deadline c' = deadline c.
Proof. apply binary64_donateAll_recorded. Qed.

Lemma only_accepted_donations_are_recorded_witness :
  let ds := threes ++ [mkDonation (ofZ 2004) carol (ofZ 3)] in
  let out := donateAll "12345" ds roomy in
  let taken := acceptedOf (fst out) ds in
  length (fst out) = length ds
  ∧ ∃ c',
      snd out !! "12345" = Some c'
      ∧ totalDonations c' = running (totalDonations roomyWell) (map gift taken)
      ∧ donors c' = donors roomyWell ++ map entry taken
      ∧ title c' = title roomyWell ∧ description c' = description roomyWell
      ∧ goal c' = goal roomyWell ∧ deadline c' = deadline roomyWell.
Proof.
  apply (only_accepted_donations_are_recorded "12345"
           (threes ++ [mkDonation (ofZ 2004) carol (ofZ 3)]) roomy roomyWell).
  vm_compute. reflexivity.
Defined.

(** ** The running total of every reachable record *)

Lemma exec_balanced call (campaignStorage : Storage) :
  balanced campaignStorage → balanced (exec call campaignStorage).
Proof.
  unfold balanced. intros inv.
  destruct call as [now rnd p t d g dl | k t d | now k p a | k | k | k]; simpl.
  - destruct (accepts p t d g) eqn:ok.
    + rewrite (binary64_createCampaign_accepts _ _ _ _ _ _ _ _ ok). simpl.
      by apply map_Forall_insert_2.
    + unfold createCampaign. unfold accepts in ok.
      repeat case_match; simpl; try done.
  - unfold updateOnlyTitleandDescription.
    destruct (campaignStorage !! k) as [c |] eqn:look; simpl; [| done].
    apply map_Forall_insert_2; [| done]. apply (inv _ _ look).
  - destruct (campaignStorage !! k) as [c |] eqn:look.
    + destruct (binary64_donation_cases _ _ _ look now p a)
        as [-> | [-> | ->]]; simpl; try done.
      apply map_Forall_insert_2; [| done]. simpl.
      rewrite map_app. unfold running. rewrite foldl_app. simpl.
      f_equal. apply (inv _ _ look).
    + unfold donateCampaign. by rewrite look.
  - unfold getCampaign. by repeat case_match.
  - unfold getDeadlineByCampaignId. by repeat case_match.
  - unfold deleteCampaign. repeat case_match; simpl; try done.
    by apply map_Forall_delete.
Qed.

(** X9. In every storage reached from the empty one by a sequence of
    calls, [totalDonations] of each record is what adding the amounts of
    its [donors], one by one from the first, to zero gives in binary64: a
    donation that is turned down leaves no entry, an accepted one is added
    as the canister rounds the sum. *)
Theorem reachable_total_is_running_sum (calls : list Call) k c :
  run calls ∅ !! k = Some c →
  totalDonations c = running (ofZ 0) (map amount (donors c)).
Proof.
  revert k c. change (balanced (run calls ∅)).
  assert (∀ campaignStorage : Storage,
            balanced campaignStorage → balanced (run calls campaignStorage))
    as runs.
  { induction calls as [| call rest IH]; intros campaignStorage inv; [done |].
    simpl. by apply IH, exec_balanced. }
  apply runs. apply map_Forall_empty.
Qed.

Lemma reachable_total_is_running_sum_witness :
  totalDonations (credited fullWell carol (ofZ 1))
  = running (ofZ 0) (map amount (donors (credited fullWell carol (ofZ 1)))).
Proof.
  apply (reachable_total_is_running_sum
           [CreateCampaign (ofZ 1000) "0.12345678" alice "Well"
              "A village well" (ofZ (2 ^ 53)) (ofZ 1);
            DonateCampaign (ofZ 2000) "12345" bob (ofZ (2 ^ 53));
            DonateCampaign (ofZ 3000) "12345" carol (ofZ 2);
            DonateCampaign (ofZ 3000) "12345" carol (ofZ 1)] "12345").
  vm_compute. reflexivity.
Defined.

(** ** A negative number of days *)




End Binary64Facts.
